(** * CSVToLatex.py: the table-layout configuration model and its renderer

    A shallow embedding of the class [CSVToLaTeX] of [src/CSVToLatex.py]
    (constructor, setters and [tolatex]) and the properties of the
    specification checked against it.

    Conventions of the embedding:
    - a Python [str] is a [string], a [list] of strings a [list string], an
      [int] a [Z]; an argument that the code accepts in several forms
      (a string or a list) is a value of an inductive type with one
      constructor per form;
    - a method is a computation in the monad [M]: it reads and assigns the
      attributes of [self] and either returns or raises; an exception keeps
      every assignment made before it was raised, as in Python;
    - the row source ([self.reader], a [csv.reader]) is the list of the rows
      it has still to yield; the output file is the text written so far;
    - a list handed to a setter is stored by value: that the caller may
      still hold and change the same list object is outside the model. *)

From Stdlib Require Import ZArith String Ascii List Lia Bool Sorted.
From stdpp Require Import base list strings.

Local Open Scope Z_scope.

(** ** The Python runtime the class relies on *)

Module Py.

(** The exceptions that the class raises itself or that the built-in
    operations it uses raise.  [Exception] stands for whatever a
    user-supplied formatter raises. *)
Inductive exn : Type :=
| ValueError
| IndexError
| TypeError
| KeyError
| StopIteration
| Exception (msg : string).

Inductive res (A : Type) : Type :=
| Ok (a : A)
| Raise (e : exn).
Arguments Ok {A} a.
Arguments Raise {A} e.

Definition is_ok {A} (r : res A) : bool :=
  match r with Ok _ => true | Raise _ => false end.

(** Statements of a method body: state in, result and state out.  The
    state comes back also when the statement raises. *)
Definition M (S A : Type) : Type := S -> res A * S.

Definition ret {S A} (a : A) : M S A := fun s => (Ok a, s).

Definition bind {S A B} (c : M S A) (k : A -> M S B) : M S B :=
  fun s =>
    match c s with
    | (Ok a, s') => k a s'
    | (Raise e, s') => (Raise e, s')
    end.

Definition raise {S A} (e : exn) : M S A := fun s => (Raise e, s).
Definition get {S} : M S S := fun s => (Ok s, s).
Definition modify {S} (f : S -> S) : M S unit := fun s => (Ok tt, f s).

(** An expression that may raise but touches no attribute. *)
Definition lift {S A} (r : res A) : M S A := fun s => (r, s).

(** [try: c except: pass] with a bare [except]. *)
Definition try_pass {S} (c : M S unit) : M S unit :=
  fun s => (Ok tt, snd (c s)).

(** Run a statement on the first component of a larger state. *)
Definition on_fst {S T A} (c : M S A) : M (S * T) A :=
  fun st => let '(r, s') := c (fst st) in (r, (s', snd st)).

Declare Scope py_scope.
Delimit Scope py_scope with py.
Notation "x <- c ;; k" := (bind c (fun x => k))
  (at level 100, c at next level, right associativity) : py_scope.
Notation "c ;; k" := (bind c (fun _ => k))
  (at level 100, right associativity) : py_scope.

(** The same for expressions ([res] alone). *)
Definition rbind {A B} (r : res A) (k : A -> res B) : res B :=
  match r with Ok a => k a | Raise e => Raise e end.

(** [for x in l: body(x)], the body run for its effect. *)
Fixpoint for_each {S A} (l : list A) (body : A -> M S unit) : M S unit :=
  match l with
  | [] => ret tt
  | x :: l' => bind (body x) (fun _ => for_each l' body)
  end.

(** A loop that carries one local variable. *)
Fixpoint fold_res {A B} (f : B -> A -> res B) (l : list A) (b : B) : res B :=
  match l with
  | [] => Ok b
  | x :: l' => rbind (f b x) (fun b' => fold_res f l' b')
  end.

(** [[f(x) for x in l]], left to right, stopping at the first raise. *)
Fixpoint map_res {A B} (f : A -> res B) (l : list A) : res (list B) :=
  match l with
  | [] => Ok []
  | x :: l' =>
      rbind (f x) (fun y => rbind (map_res f l') (fun ys => Ok (y :: ys)))
  end.

(** [range(n)]: empty when [n <= 0]. *)
Definition range (n : Z) : list Z := Z.of_nat <$> seq 0 (Z.to_nat n).

(** [[x] * n]: empty when [n <= 0]. *)
Definition list_mul {A} (x : A) (n : Z) : list A := replicate (Z.to_nat n) x.

Definition len {A} (l : list A) : Z := Z.of_nat (length l).

(** Subscripts: [0 .. len-1] count from the left, [-len .. -1] from the
    right, anything else is an [IndexError]. *)
Definition position (n : nat) (i : Z) : option nat :=
  if (0 <=? i) && (i <? Z.of_nat n) then Some (Z.to_nat i)
  else if (- Z.of_nat n <=? i) && (i <? 0) then Some (Z.to_nat (Z.of_nat n + i))
  else None.

(** [l[i]] *)
Definition getitem {A} (l : list A) (i : Z) : res A :=
  match position (length l) i with
  | Some k => match l !! k with Some x => Ok x | None => Raise IndexError end
  | None => Raise IndexError
  end.

(** [l[i] = x]; the list after the assignment. *)
Definition setitem {A} (l : list A) (i : Z) (x : A) : res (list A) :=
  match position (length l) i with
  | Some k => Ok (<[k := x]> l)
  | None => Raise IndexError
  end.

(** [sep.join(l)] *)
Definition join (sep : string) (l : list string) : string := String.concat sep l.

(** The characters of a string, each as a string of length one: what
    indexing or iterating a [str] yields. *)
Fixpoint chars (s : string) : list string :=
  match s with
  | EmptyString => []
  | String a s' => String a EmptyString :: chars s'
  end.

(** [s[1:]] *)
Definition drop_first (s : string) : string :=
  match s with
  | EmptyString => EmptyString
  | String _ s' => s'
  end.

Definition str_eq (s t : string) : bool := String.eqb s t.

End Py.

Import Py.
Local Open Scope py_scope.

(** ** The class [CSVToLaTeX] *)

Module CSVToLatex.

(** A row as [csv.reader] yields it. *)
Definition row : Type := list string.

(** A formatter takes the cell and returns its text, or raises. *)
Definition formatter : Type := string -> res string.

(** The built-in [str], the default formatter: on a [str] it is the
    identity. *)
Definition str : formatter := fun s => Ok s.

(** [self.columns] once set, and the argument of [set_columns]: a literal
    column specification or one token per column. *)
Inductive colspec : Type :=
| ColStr (s : string)
| ColList (l : list string).

(** The argument of [set_column_lines]: a string, a list whose first
    element is an [int] (taken as a list of positions), or any other list
    (taken as the separator tokens themselves). *)
Inductive collines : Type :=
| LinesStr (s : string)
| LinesInts (l : list Z)
| LinesToks (l : list string).

(** The argument of [set_row_lines], stored as given. *)
Inductive rowlines : Type :=
| RowStr (s : string)
| RowList (l : list Z).

(** The argument of [set_formatters]. *)
Inductive formatters_arg : Type :=
| FmtOne (f : formatter)
| FmtList (l : list formatter).

(** [self.keys]: a dict that only ever holds the keys ["bold"],
    ["clines"] and ["rlines"]; [None] is an absent key. *)
Record keys_t : Type := mk_keys {
  bold : option bool;
  clines : option (list string);
  rlines : option rowlines
}.

(** The instance attributes.  [include_headers] is the entry of that name
    in the instance's own dictionary: [None] while nothing has been
    assigned to it, in which case the name resolves to the method that the
    class defines under the same name. *)
Record CSVToLaTeX : Type := mk_self {
  reader : list row;
  headers : option (list string);
  include_headers : option bool;
  ncols : Z;
  columns : option colspec;
  keys : keys_t;
  formatters : list formatter
}.

(** *** Attribute and key assignment *)

Definition with_reader (v : list row) (o : CSVToLaTeX) : CSVToLaTeX :=
  mk_self v (headers o) (include_headers o) (ncols o) (columns o) (keys o) (formatters o).
Definition with_headers (v : option (list string)) (o : CSVToLaTeX) : CSVToLaTeX :=
  mk_self (reader o) v (include_headers o) (ncols o) (columns o) (keys o) (formatters o).
Definition with_include_headers (v : option bool) (o : CSVToLaTeX) : CSVToLaTeX :=
  mk_self (reader o) (headers o) v (ncols o) (columns o) (keys o) (formatters o).
Definition with_columns (v : option colspec) (o : CSVToLaTeX) : CSVToLaTeX :=
  mk_self (reader o) (headers o) (include_headers o) (ncols o) v (keys o) (formatters o).
Definition with_keys (v : keys_t) (o : CSVToLaTeX) : CSVToLaTeX :=
  mk_self (reader o) (headers o) (include_headers o) (ncols o) (columns o) v (formatters o).
Definition with_formatters (v : list formatter) (o : CSVToLaTeX) : CSVToLaTeX :=
  mk_self (reader o) (headers o) (include_headers o) (ncols o) (columns o) (keys o) v.

Definition with_bold (v : bool) (o : CSVToLaTeX) : CSVToLaTeX :=
  with_keys (mk_keys (Some v) (clines (keys o)) (rlines (keys o))) o.
Definition with_clines (v : list string) (o : CSVToLaTeX) : CSVToLaTeX :=
  with_keys (mk_keys (bold (keys o)) (Some v) (rlines (keys o))) o.
Definition with_rlines (v : rowlines) (o : CSVToLaTeX) : CSVToLaTeX :=
  with_keys (mk_keys (bold (keys o)) (clines (keys o)) (Some v)) o.

(** A method body: statements over [self]. *)
Definition method (A : Type) : Type := M CSVToLaTeX A.

(** *** [__init__] *)

(** Lines 41-44: the comment marker is taken off the first header inside
    a [try] whose bare [except] passes. *)
Definition strip_marker : M (list string) unit :=
  hs <- get ;;
  h0 <- lift (getitem hs 0) ;;
  c <- lift (getitem (chars h0) 0) ;;
  if str_eq c "#"
  then hs' <- lift (setitem hs 0 (drop_first h0)) ;; modify (fun _ => hs')
  else ret tt.

Definition read_headers (first : row) : list string :=
  snd (try_pass strip_marker first).

(** [rows] is what the reader opened on [fname] yields. *)
Definition __init__ (rows : list row) (ncols_arg : option Z) (header : bool)
  : res CSVToLaTeX :=
  match ncols_arg, header with
  | None, false => Raise ValueError
  | _, true =>
      match rows with
      | [] => Raise StopIteration
      | first :: rest =>
          let hs := read_headers first in
          let n := len hs in
          match ncols_arg with
          | Some k =>
              if negb (n =? k) then Raise ValueError
              else Ok (mk_self rest (Some hs) (Some true) n None
                         (mk_keys None None None) (list_mul str n))
          | None =>
              Ok (mk_self rest (Some hs) (Some true) n None
                    (mk_keys None None None) (list_mul str n))
          end
      end
  | Some k, false =>
      Ok (mk_self rows None (Some false) k None
            (mk_keys None None None) (list_mul str k))
  end.

(** *** [include_headers] *)

(** What the name [include_headers] resolves to on an instance: the
    instance's own entry when there is one, else the method of the
    class. *)
Inductive attribute : Type :=
| BoolValue (b : bool)
| BoundMethod.

Definition getattr_include_headers (self : CSVToLaTeX) : attribute :=
  match include_headers self with
  | Some b => BoolValue b
  | None => BoundMethod
  end.

(** Truth value, as [if(self.include_headers)] takes it: a bound method is
    true. *)
Definition truthy (a : attribute) : bool :=
  match a with BoolValue b => b | BoundMethod => true end.

(** The body of [def include_headers(self, val)]. *)
Definition include_headers_def (val : bool) : method unit :=
  modify (with_include_headers (Some val)).

(** [obj.include_headers(val)]: the name is resolved, then called. *)
Definition call_include_headers (val : bool) : method unit :=
  self <- get ;;
  match getattr_include_headers self with
  | BoundMethod => include_headers_def val
  | BoolValue _ => raise TypeError
  end.

(** *** [set_headers] *)

Definition set_headers (hs : list string) (b : bool) : method unit :=
  self <- get ;;
  if len hs =? ncols self then
    modify (with_headers (Some hs)) ;;
    modify (with_include_headers (Some true)) ;;
    modify (with_bold b)
  else raise ValueError.

(** *** [set_columns] *)

(** [len(columns)] and [columns[i]] for [i] in [range(len(columns))]. *)
Definition colspec_items (c : colspec) : list string :=
  match c with
  | ColStr s => chars s
  | ColList l => l
  end.

Definition normalize (tok : string) : string :=
  if str_eq tok "center" then "c"
  else if str_eq tok "left" then "l"
  else if str_eq tok "right" then "r"
  else tok.

(** [self.columns.append(x)], [self.columns] being a list. *)
Definition columns_append (x : string) : method unit :=
  self <- get ;;
  match columns self with
  | Some (ColList l) => modify (with_columns (Some (ColList (l ++ [x]))))
  | _ => raise TypeError
  end.

Definition set_columns (cols : colspec) : method unit :=
  match cols with
  | ColStr s => modify (with_columns (Some (ColStr s)))
  | ColList _ => ret tt
  end ;;
  self <- get ;;
  if negb (len (colspec_items cols) =? ncols self) then raise ValueError
  else
    modify (with_columns (Some (ColList []))) ;;
    for_each (colspec_items cols) (fun tok => columns_append (normalize tok)).

(** *** [set_column_lines], [set_column_line] *)

Definition set_column_lines (lines : collines) : method unit :=
  self <- get ;;
  match lines with
  | LinesStr s =>
      if str_eq s "all" then modify (with_clines (list_mul "|" (ncols self + 1)))
      else if str_eq s "none" then modify (with_clines (list_mul "" (ncols self + 1)))
      else ret tt
  | LinesInts [] | LinesToks [] => raise IndexError
  | LinesInts idxs =>
      l <- lift (fold_res (fun l i => setitem l i "|") idxs
                   (list_mul "" (ncols self + 1))) ;;
      modify (with_clines l)
  | LinesToks toks => modify (with_clines toks)
  end.

Definition set_column_line (idx : Z) (line : string) : method unit :=
  self <- get ;;
  match clines (keys self) with
  | None => set_column_lines (LinesStr "none")
  | Some _ => ret tt
  end ;;
  self <- get ;;
  match clines (keys self) with
  | None => raise KeyError
  | Some l => l' <- lift (setitem l idx line) ;; modify (with_clines l')
  end.

(** *** [set_row_lines] *)

Definition set_row_lines (lines : rowlines) : method unit :=
  modify (with_rlines lines).

(** *** [set_formatters], [set_formatter] *)

Definition set_formatters (fs : formatters_arg) : method unit :=
  self <- get ;;
  match fs with
  | FmtList l =>
      if len l =? ncols self then modify (with_formatters l)
      else raise ValueError
  | FmtOne f => modify (with_formatters (list_mul f (ncols self)))
  end.

Definition set_formatter (idx : Z) (f : formatter) : method unit :=
  self <- get ;;
  l <- lift (setitem (formatters self) idx f) ;;
  modify (with_formatters l).

(** *** [tolatex] *)

(** The state of [tolatex]: [self] and the text of the output file. *)
Definition world : Type := (CSVToLaTeX * string)%type.

Definition this : M world CSVToLaTeX := fun w => (Ok (fst w), w).
Definition assign (f : CSVToLaTeX -> CSVToLaTeX) : M world unit :=
  on_fst (modify f).
(** [ofile.write(s)] *)
Definition write (s : string) : M world unit :=
  modify (fun w => (fst w, snd w +:+ s)).

(** ["\n"] *)
Definition nl : string := String "010"%char EmptyString.
(** [r"\\" + "\n"] *)
Definition endline : string := "\\" +:+ nl.
(** ["\\hline\n"] *)
Definition hline : string := "\hline" +:+ nl.

Definition table_open (colstr : string) : string :=
  "\begin{tabular}{" +:+ colstr +:+ "}" +:+ nl.
Definition table_close : string := "\end{tabular}".

(** Lines 246-248: [lines[0]], then [columns[i] + lines[i+1]] for each
    column. *)
Definition compose_colstr (n : Z) (cols lines : list string) : res string :=
  rbind (getitem lines 0) (fun c0 =>
    fold_res
      (fun colstr i =>
         rbind (getitem cols i) (fun ci =>
         rbind (getitem lines (i + 1)) (fun li =>
         Ok (colstr +:+ (ci +:+ li)))))
      (range n) c0).

(** Lines 235-248. *)
Definition resolve_colstr : M world string :=
  self <- this ;;
  cols <- match columns self with
          | None =>
              let d := ColList (list_mul "c" (ncols self)) in
              assign (with_columns (Some d)) ;; ret d
          | Some c => ret c
          end ;;
  match cols with
  | ColStr s => ret s
  | ColList l =>
      let lines := match clines (keys self) with
                   | Some ls => ls
                   | None => list_mul "" (ncols self + 1)
                   end in
      lift (compose_colstr (ncols self) l lines)
  end.

(** Lines 251-260: [(all_lines, rlines)]. *)
Definition row_policy (k : keys_t) : bool * list Z :=
  match rlines k with
  | Some (RowStr s) =>
      if str_eq s "all" then (true, [])
      else if str_eq s "none" then (false, [100000000])
      else (false, [])
  | Some (RowList l) => (false, l)
  | None => (false, [10000000000])
  end.

Definition textbf (s : string) : string := "\textbf{" +:+ s +:+ "}".

(** Lines 263-269. *)
Definition write_headers : M world unit :=
  self <- this ;;
  if truthy (getattr_include_headers self) then
    match bold (keys self) with
    | Some true =>
        match headers self with
        | Some hs => assign (with_headers (Some (textbf <$> hs)))
        | None => raise TypeError
        end
    | _ => ret tt
    end ;;
    self <- this ;;
    match headers self with
    | Some hs =>
        let headers := join " & " hs in
        write hline ;; write (headers +:+ endline) ;; write hline
    | None => raise TypeError
    end
  else ret tt.

(** Line 273: the cells of one row, formatted and joined. *)
Definition format_row (self : CSVToLaTeX) (r : row) : res string :=
  rbind
    (map_res
       (fun i =>
          rbind (getitem (formatters self) i) (fun f =>
          rbind (getitem r i) (fun cell => f cell)))
       (range (ncols self)))
    (fun cells => Ok (join " & " cells)).

(** Lines 275-279: is a separator written after row [rownr], and the
    cursor [idx] afterwards. *)
Definition separator_after (all_lines : bool) (rl : list Z) (idx : nat) (rownr : Z)
  : bool * nat :=
  if all_lines then (true, idx)
  else match rl !! idx with
       | Some k => if rownr =? k then (true, S idx) else (false, idx)
       | None => (false, idx)
       end.

(** Lines 272-280: [rows] is what the reader still has to yield. *)
Fixpoint rows_loop (all_lines : bool) (rl : list Z) (rows : list row)
    (idx : nat) (rownr : Z) : M world unit :=
  match rows with
  | [] => ret tt
  | r :: rest =>
      assign (with_reader rest) ;;
      self <- this ;;
      line <- lift (format_row self r) ;;
      write (line +:+ endline) ;;
      let '(sep, idx') := separator_after all_lines rl idx rownr in
      (if sep then write hline else ret tt) ;;
      rows_loop all_lines rl rest idx' (rownr + 1)
  end.

(** Lines 251-282: the header lines, the rows and their separators. *)
Definition tolatex_body : M world unit :=
  self <- this ;;
  let '(all_lines, rl) := row_policy (keys self) in
  write_headers ;;
  self <- this ;;
  rows_loop all_lines rl (reader self) 0%nat 0 ;;
  last <- lift (getitem rl (-1)) ;;
  if last =? -1 then write hline else ret tt.

(** The file is opened for writing, hence empty to start with. *)
Definition tolatex : M world unit :=
  modify (fun w => (fst w, "")) ;;
  colstr <- resolve_colstr ;;
  write (table_open colstr) ;;
  tolatex_body ;;
  write table_close.

(** *** Rendering a model against a row source *)

(** [render self rows]: [tolatex] run on [self] with the reader feeding
    [rows]; the result, the model afterwards and the text written. *)
Definition render (self : CSVToLaTeX) (rows : list row) : res unit * world :=
  tolatex (with_reader rows self, "").

Definition outcome (r : res unit * world) : res unit := fst r.
Definition after (r : res unit * world) : CSVToLaTeX := fst (snd r).
Definition output (r : res unit * world) : string := snd (snd r).

(** Running a setter on a model. *)
Definition exec (c : method unit) (self : CSVToLaTeX) : CSVToLaTeX := snd (c self).

End CSVToLatex.

Import CSVToLatex.

(** ** Vocabulary of the properties *)

(** The object that [CSVToLaTeX(fname, ncols=n)] returns when the file holds
    [rows]. *)
Definition plain (n : Z) (rows : list row) : CSVToLaTeX :=
  mk_self rows None (Some false) n None (mk_keys None None None) (list_mul str n).

(** A text given line by line, each line closed by ["\n"]. *)
Fixpoint text (ls : list string) : string :=
  match ls with
  | [] => ""
  | l :: ls' => l +:+ nl +:+ text ls'
  end.

(** The headers as section 4.1 describes them: the first row, with the
    first character of its first string removed when that character is the
    comment marker. *)
Definition headers_spec (first : row) : list string :=
  match first with
  | String "#" s :: tl => s :: tl
  | _ => first
  end.

(** The forms of the argument for which [set_column_lines] builds the list
    of separators itself. *)
Definition builds_separators (lines : collines) : bool :=
  match lines with
  | LinesStr s => str_eq s "all" || str_eq s "none"
  | LinesInts _ => true
  | LinesToks _ => false
  end.

(** The headers are restyled when they are rendered bold: line 265 then
    assigns the wrapped headers to [self.headers]. *)
Definition restyles (o : CSVToLaTeX) : bool :=
  truthy (getattr_include_headers o) &&
  match bold (keys o) with Some true => true | _ => false end.

(** Line 236: the default alignment is stored when none was set. *)
Definition fill_columns (o : CSVToLaTeX) : CSVToLaTeX :=
  match columns o with
  | None => with_columns (Some (ColList (list_mul "c" (ncols o)))) o
  | Some _ => o
  end.

(** [o'] has the configuration of [o]: every attribute but the reader is the
    same, the headers as long as they are not restyled. *)
Definition unchanged (o o' : CSVToLaTeX) : Prop :=
  ncols o' = ncols o /\ columns o' = columns o /\ keys o' = keys o /\
  formatters o' = formatters o /\ include_headers o' = include_headers o /\
  (restyles o = false -> headers o' = headers o).

(** A statement of [tolatex] that keeps the configuration, whether it
    returns or raises. *)
Definition keeps {A} (c : M world A) : Prop :=
  forall w, unchanged (fst w) (fst (snd (c w))).

(** A statement that only adds to the end of the file. *)
Definition appends {A} (c : M world A) : Prop :=
  forall w, exists t, snd (snd (c w)) = snd w +:+ t.

(** The separators, when configured, are one more than the columns. *)
Definition separators_fit (o : CSVToLaTeX) : Prop :=
  0 <= ncols o /\
  match clines (keys o) with
  | Some ls => len ls = ncols o + 1
  | None => True
  end.

(** A configuration on which [tolatex] has all it needs: an alignment that
    is a literal string, or one token per column with fitting separators;
    headers when they are to be rendered; a resolved list of row indices
    that is not empty. *)
Definition well_configured (o : CSVToLaTeX) : Prop :=
  match columns o with
  | Some (ColStr _) => True
  | Some (ColList l) => len l = ncols o /\ separators_fit o
  | None => separators_fit o
  end /\
  (truthy (getattr_include_headers o) = true -> headers o <> None) /\
  snd (row_policy (keys o)) <> [].

(** Every row can be formatted: it has a cell for each column, there is a
    formatter for each column and none raises. *)
Definition formats (o : CSVToLaTeX) (rows : list row) : Prop :=
  Forall (fun r => is_ok (format_row o r) = true) rows.

(** The calls that the class offers, as a user makes them on an object. *)
Inductive call : Type :=
| IncludeHeaders (val : bool)
| SetHeaders (hs : list string) (b : bool)
| SetColumns (cols : colspec)
| SetColumnLines (lines : collines)
| SetColumnLine (idx : Z) (line : string)
| SetRowLines (lines : rowlines)
| SetFormatters (fs : formatters_arg)
| SetFormatter (idx : Z) (f : formatter)
| ToLatex.

(** The object after a call, whether the call returned or raised. *)
Definition perform (c : call) (self : CSVToLaTeX) : CSVToLaTeX :=
  match c with
  | IncludeHeaders val => snd (call_include_headers val self)
  | SetHeaders hs b => snd (set_headers hs b self)
  | SetColumns cols => snd (set_columns cols self)
  | SetColumnLines lines => snd (set_column_lines lines self)
  | SetColumnLine idx line => snd (set_column_line idx line self)
  | SetRowLines lines => snd (set_row_lines lines self)
  | SetFormatters fs => snd (set_formatters fs self)
  | SetFormatter idx f => snd (set_formatter idx f self)
  | ToLatex => fst (snd (tolatex (self, "")))
  end.

(** The object after a sequence of calls, the caller going on after a call
    that raised. *)
Definition session (cs : list call) (self : CSVToLaTeX) : CSVToLaTeX :=
  fold_left (fun o c => perform c o) cs self.

(** The lengths that the setters check: one formatter per column, one
    header per column when there are headers, one alignment token per column
    when the alignment is a list. *)
Definition consistent (o : CSVToLaTeX) : Prop :=
  0 <= ncols o /\
  len (formatters o) = ncols o /\
  (forall hs, headers o = Some hs -> len hs = ncols o) /\
  (forall l, columns o = Some (ColList l) -> len l = ncols o).

(** A statement of [tolatex] that leaves [g self] as it is, [g] reading the
    attributes. *)
Definition untouched {T A} (g : CSVToLaTeX -> T) (c : M world A) : Prop :=
  forall w, g (fst (snd (c w))) = g (fst w).

(** The alignment tokens, each followed by the separator to its right. *)
Fixpoint columns_text (cols seps : list string) : string :=
  match cols, seps with
  | c :: cols', s :: seps' => c +:+ s +:+ columns_text cols' seps'
  | _, _ => ""
  end.

(** The column specification woven from the alignment tokens and the
    separators: the leftmost separator, then each token with the separator
    to its right. *)
Definition weave (cols lines : list string) : string :=
  match lines with
  | [] => ""
  | s0 :: seps => s0 +:+ columns_text cols seps
  end.

(** The strings of a list one after the other. *)
Definition flat (l : list string) : string := foldr String.append "" l.

(** The separators that [tolatex] uses (lines 241-244): the configured
    ones, or one empty token per position. *)
Definition separators (o : CSVToLaTeX) : list string :=
  match clines (keys o) with
  | Some ls => ls
  | None => list_mul "" (ncols o + 1)
  end.

(** The model once the headers have been rendered (lines 264-265): wrapped
    in bold when they are rendered bold. *)
Definition restyle (o : CSVToLaTeX) : CSVToLaTeX :=
  if restyles o then
    match headers o with
    | Some hs => with_headers (Some (textbf <$> hs)) o
    | None => o
    end
  else o.

(** The header lines (lines 266-269): a rule, the headers, a rule. *)
Definition header_text (o : CSVToLaTeX) : string :=
  if truthy (getattr_include_headers o) then
    match headers (restyle o) with
    | Some hs => hline +:+ (join " & " hs +:+ endline) +:+ hline
    | None => ""
    end
  else "".

(** Row [k] is marked for a rule: every row is when [all_lines] is set,
    else the rows whose index is in the list. *)
Definition marked (all_lines : bool) (rl : list Z) (k : Z) : bool :=
  all_lines || existsb (Z.eqb k) rl.

(** The lines of the rows, numbered from [rownr], each closed by the row
    terminator and followed by a rule when [mark] says so. *)
Fixpoint rows_text (mark : Z -> bool) (rownr : Z) (lines : list string) : string :=
  match lines with
  | [] => ""
  | l :: ls =>
      (l +:+ endline) +:+ (if mark rownr then hline else "")
      +:+ rows_text mark (rownr + 1) ls
  end.

(** The rule after the last row: written when the last of the row indices
    is [-1]. *)
Definition closing_rule (rl : list Z) : string :=
  match last rl with
  | Some k => if k =? -1 then hline else ""
  | None => ""
  end.

(** Row indices as [tolatex] expects them: increasing indices that are not
    negative, followed by nothing or by negative entries such as the final
    [-1]. *)
Definition ascending (rl : list Z) : Prop :=
  exists inc neg,
    rl = inc ++ neg /\ StronglySorted Z.lt inc /\
    Forall (fun k => 0 <= k) inc /\ Forall (fun k => k < 0) neg.

(** The cursor [idx] is where it should be before row [rownr]: the indices
    before it are those of earlier rows, the ones from it on are still to
    come, in increasing order. *)
Definition cursor_ok (all_lines : bool) (rl : list Z) (idx : nat) (rownr : Z) : Prop :=
  all_lines = true \/
  (0 <= rownr /\ Forall (fun k => k < rownr) (take idx rl) /\
   exists inc neg,
     drop idx rl = inc ++ neg /\ StronglySorted Z.lt inc /\
     Forall (fun k => rownr <= k) inc /\ Forall (fun k => k < 0) neg).

(** Lines 281 and 282: the rule after the last row. *)
Definition sentinel_step (rl : list Z) : M world unit :=
  last <- lift (getitem rl (-1)) ;;
  if last =? -1 then write hline else ret tt.

(** The position that a subscript [i] stands for in a list of length [n]:
    a negative subscript counts from the end. *)
Definition resolved (n i : Z) : Z := if 0 <=? i then i else n + i.

(** The subscript [i] stands for position [k] of a list of length [n]. *)
Definition hits (n : Z) (k : nat) (i : Z) : bool :=
  (i =? Z.of_nat k) || (i =? Z.of_nat k - n).

(** ** Running statements *)

Section Statements.
Context {S : Type}.

(** A statement followed by one that always raises never returns. *)
Lemma bind_never_ok {A B} (c : M S A) (k : A -> M S B) s :
  (forall a s', is_ok (fst (k a s')) = false) ->
  is_ok (fst (bind c k s)) = false.
Proof.
  intros Hk. unfold bind. destruct (c s) as [[a|e] s']; [apply Hk | reflexivity].
Qed.
End Statements.

(** ** The constructor *)

Lemma init_plain (n : Z) (rows : list row) :
  __init__ rows (Some n) false = Ok (plain n rows).
Proof. reflexivity. Qed.

Lemma read_headers_spec (first : row) : read_headers first = headers_spec first.
Proof.
  destruct first as [|h tl]; [reflexivity|].
  destruct h as [|a s]; [reflexivity|].
  unfold read_headers, try_pass, strip_marker, bind, get, lift. simpl.
  destruct (Ascii.eqb_spec a "#") as [->|Hne].
  - reflexivity.
  - unfold str_eq. simpl.
    destruct (Ascii.eqb_spec a "#"); [contradiction|]. simpl.
    destruct a as [[] [] [] [] [] [] [] []]; try reflexivity. contradiction.
Qed.

Lemma len_read_headers (first : row) : len (read_headers first) = len first.
Proof.
  rewrite read_headers_spec. destruct first as [|[|a s] tl]; try reflexivity.
  simpl. destruct a as [[] [] [] [] [] [] [] []]; reflexivity.
Qed.

(** C7: when the constructor is asked to derive the headers (with no
    explicit column count, or with one that agrees with the first row) it
    returns an object whose reader has the first row consumed and whose
    headers are that row, the comment marker taken off the first string when
    it starts with one; a first string that is empty raises nothing and the
    headers are the row as read. *)
Theorem init_derives_headers (first : row) (rest : list row) :
  let self := mk_self rest (Some (read_headers first)) (Some true) (len first) None
                (mk_keys None None None) (list_mul str (len first)) in
  __init__ (first :: rest) None true = Ok self /\
  __init__ (first :: rest) (Some (len first)) true = Ok self /\
  read_headers first = headers_spec first /\
  (forall s tl, read_headers (String "#" s :: tl) = s :: tl) /\
  (forall tl, read_headers ("" :: tl) = "" :: tl).
Proof.
  simpl. repeat split.
  - rewrite len_read_headers. reflexivity.
  - rewrite len_read_headers, Z.eqb_refl. reflexivity.
  - apply read_headers_spec.
Qed.

(** ** [include_headers] *)

(** Both branches of the constructor assign a boolean to
    [self.include_headers]. *)
Lemma init_include_headers rows ncols_arg header self :
  __init__ rows ncols_arg header = Ok self ->
  include_headers self = Some header.
Proof.
  unfold __init__. intros H.
  destruct ncols_arg as [k|], header, rows as [|first rest]; try discriminate;
    try (destruct (len (read_headers first) =? k)); simpl in H;
    try discriminate; injection H as <-; reflexivity.
Qed.

(** C10: on every object that the constructor returns, the name
    [include_headers] resolves to the boolean stored by the constructor, so
    that calling [include_headers(val)] raises [TypeError] and changes
    nothing. *)
Theorem include_headers_not_callable rows ncols_arg header self (val : bool) :
  __init__ rows ncols_arg header = Ok self ->
  getattr_include_headers self = BoolValue header /\
  call_include_headers val self = (Raise TypeError, self).
Proof.
  intros H. apply init_include_headers in H.
  unfold call_include_headers, getattr_include_headers, bind, get. rewrite H.
  split; reflexivity.
Qed.

Lemma include_headers_not_callable_witness :
  __init__ [["x"; "y"]] None true
    = Ok (mk_self [] (Some ["x"; "y"]) (Some true) 2 None
            (mk_keys None None None) (list_mul str 2)) /\
  call_include_headers false
      (mk_self [] (Some ["x"; "y"]) (Some true) 2 None
         (mk_keys None None None) (list_mul str 2))
    = (Raise TypeError,
       mk_self [] (Some ["x"; "y"]) (Some true) 2 None
         (mk_keys None None None) (list_mul str 2)).
Proof.
  split; [reflexivity|].
  apply (include_headers_not_callable [["x"; "y"]] None true _ false). reflexivity.
Defined.

(** ** [set_headers] *)

(** C8: [set_headers] raises [ValueError] (the specification's
    ConfigurationError) whenever the number of headers differs from [ncols],
    and then leaves the model as it was; whenever the two agree it returns,
    having stored the headers, recorded the bold flag under the key [bold]
    and set [include_headers] to [True], and nothing else. *)
Theorem set_headers_checked (self : CSVToLaTeX) (hs : list string) (b : bool) :
  (len hs <> ncols self ->
     set_headers hs b self = (Raise ValueError, self)) /\
  (len hs = ncols self ->
     set_headers hs b self =
       (Ok tt,
        mk_self (reader self) (Some hs) (Some true) (ncols self) (columns self)
          (mk_keys (Some b) (clines (keys self)) (rlines (keys self)))
          (formatters self))).
Proof.
  unfold set_headers, bind, get.
  split; intros H; destruct (Z.eqb_spec (len hs) (ncols self)); try contradiction;
    reflexivity.
Qed.

Lemma set_headers_checked_witness :
  set_headers ["A"] true (plain 2 []) = (Raise ValueError, plain 2 []) /\
  set_headers ["A"; "B"] true (plain 2 []) =
    (Ok tt,
     mk_self [] (Some ["A"; "B"]) (Some true) 2 None
       (mk_keys (Some true) None None) (list_mul str 2)).
Proof.
  split.
  - apply (proj1 (set_headers_checked (plain 2 []) ["A"] true)). vm_compute. discriminate.
  - apply (proj2 (set_headers_checked (plain 2 []) ["A"; "B"] true)). reflexivity.
Defined.

(** ** [set_columns] *)

Lemma columns_append_all (o : CSVToLaTeX) (toks : list string) :
  forall acc,
    for_each toks (fun tok => columns_append (normalize tok))
      (with_columns (Some (ColList acc)) o)
    = (Ok tt, with_columns (Some (ColList (acc ++ (normalize <$> toks)))) o).
Proof.
  induction toks as [|tok toks IH]; intros acc; simpl.
  - rewrite app_nil_r. reflexivity.
  - unfold bind at 1. unfold columns_append at 1, bind, get, modify. simpl.
    change (with_columns (Some (ColList (acc ++ [normalize tok])))
              (with_columns (Some (ColList acc)) o))
      with (with_columns (Some (ColList (acc ++ [normalize tok]))) o).
    rewrite IH, <- app_assoc. reflexivity.
Qed.

(** The second half of C2: a sequence is accepted exactly when its length is
    [ncols]; it is then stored with [center], [left] and [right] replaced
    by [c], [l] and [r] and every other token as it is. *)
Lemma set_columns_list (self : CSVToLaTeX) (l : list string) :
  set_columns (ColList l) self =
    if len l =? ncols self
    then (Ok tt, with_columns (Some (ColList (normalize <$> l))) self)
    else (Raise ValueError, self).
Proof.
  unfold set_columns. unfold bind at 1, ret. unfold bind at 1, get. simpl.
  destruct (len l =? ncols self); simpl; [|reflexivity].
  unfold bind, modify. apply (columns_append_all self l []).
Qed.

Lemma normalize_tokens :
  normalize "left" = "l" /\ normalize "center" = "c" /\ normalize "right" = "r".
Proof. repeat split. Qed.

Lemma normalize_other (tok : string) :
  tok <> "center" -> tok <> "left" -> tok <> "right" -> normalize tok = tok.
Proof.
  intros Hc Hl Hr. unfold normalize, str_eq.
  destruct (String.eqb_spec tok "center"); [contradiction|].
  destruct (String.eqb_spec tok "left"); [contradiction|].
  destruct (String.eqb_spec tok "right"); [contradiction|]. reflexivity.
Qed.

(** A string whose length is not [ncols] is refused, for every string. *)
Lemma set_columns_string_refused (self : CSVToLaTeX) (s : string) :
  len (chars s) <> ncols self ->
  set_columns (ColStr s) self = (Raise ValueError, with_columns (Some (ColStr s)) self).
Proof.
  intros H. unfold set_columns, bind, modify, get. simpl.
  destruct (Z.eqb_spec (len (chars s)) (ncols self)); [contradiction | reflexivity].
Qed.


(** C2 at two failing inputs, three columns.  The literal specification
    [l|c|r] is refused with [ValueError] because its length is not the
    column count.  The literal [lcr], whose length is the column count, is
    accepted but stored as the list of its characters, so that the column
    separators set afterwards are composed into the specification:
    [tolatex] opens the table with [|l|c|r|], not with [lcr]. *)
Theorem set_columns_string_not_verbatim :
  let self := plain 3 [] in
  set_columns (ColStr "l|c|r") self
    = (Raise ValueError, with_columns (Some (ColStr "l|c|r")) self) /\
  set_columns (ColStr "lcr") self
    = (Ok tt, with_columns (Some (ColList ["l"; "c"; "r"])) self) /\
  let self' := with_clines ["|"; "|"; "|"; "|"]
                 (with_columns (Some (ColList ["l"; "c"; "r"])) self) in
  set_column_lines (LinesStr "all") (exec (set_columns (ColStr "lcr")) self)
    = (Ok tt, self') /\
  outcome (tolatex (self', "")) = Ok tt /\
  output (tolatex (self', "")) = text ["\begin{tabular}{|l|c|r|}"] +:+ "\end{tabular}".
Proof. repeat split. Qed.

(** ** [set_column_lines] *)

Lemma setitem_length {A} (l l' : list A) (i : Z) (x : A) :
  setitem l i x = Ok l' -> length l' = length l.
Proof.
  unfold setitem. destruct (position (length l) i); [|discriminate].
  intros [= <-]. apply length_insert.
Qed.

Lemma fold_setitem_length {A} (x : A) (idxs : list Z) :
  forall l l' : list A,
    fold_res (fun l i => setitem l i x) idxs l = Ok l' -> length l' = length l.
Proof.
  induction idxs as [|i idxs IH]; intros l l' H; simpl in H.
  - injection H as <-. reflexivity.
  - destruct (setitem l i x) as [l1|e] eqn:E; simpl in H; [|discriminate].
    rewrite (IH _ _ H). eapply setitem_length, E.
Qed.

Lemma len_list_mul {A} (x : A) (n : Z) : 0 <= n -> len (list_mul x n) = n.
Proof. intros H. unfold len, list_mul. rewrite length_replicate. lia. Qed.

(** C5, the claim as stated fails: with two columns the explicit token
    list [["|"]], of length one, is accepted and stored as the separator
    configuration, whose length is then not [ncols + 1 = 3]. *)
Lemma set_column_lines_keeps_any_length :
  set_column_lines (LinesToks ["|"]) (plain 2 [])
    = (Ok tt, with_clines ["|"] (plain 2 [])) /\
  clines (keys (with_clines ["|"] (plain 2 []))) = Some ["|"] /\
  len ["|"] <> ncols (plain 2 []) + 1.
Proof. repeat split. vm_compute. discriminate. Qed.

(** C5 as amended: after a call of [set_column_lines] that returns, made
    with ["all"], ["none"] or a list of integer positions, the stored
    separators have length [ncols + 1]; an explicit list of tokens is stored
    as it is given, whatever its length. *)
Theorem set_column_lines_stored (self self' : CSVToLaTeX) (lines : collines) :
  0 <= ncols self ->
  set_column_lines lines self = (Ok tt, self') ->
  (builds_separators lines = true ->
     exists l, clines (keys self') = Some l /\ len l = ncols self + 1) /\
  (forall toks, lines = LinesToks toks -> clines (keys self') = Some toks).
Proof.
  intros Hn Hrun. unfold set_column_lines, bind, get in Hrun.
  assert (Hlen : forall x : string, len (list_mul x (ncols self + 1)) = ncols self + 1)
    by (intros x; apply len_list_mul; lia).
  destruct lines as [s | idxs | toks]; simpl.
  - split; [|intros toks [=]].
    intros Hs. destruct (str_eq s "all") eqn:Ea.
    + injection Hrun as <-. eexists; split; [reflexivity | apply Hlen].
    + simpl in Hs. rewrite Hs in Hrun. injection Hrun as <-.
      eexists; split; [reflexivity | apply Hlen].
  - split; [intros _ | intros toks [=]].
    destruct idxs as [|i idxs]; [discriminate|].
    unfold lift in Hrun.
    destruct (fold_res _ (i :: idxs) _) as [l|e] eqn:E; [|discriminate].
    injection Hrun as <-. exists l. split; [reflexivity|].
    unfold len. rewrite (fold_setitem_length _ _ _ _ E). apply (Hlen "").
  - split; [discriminate|]. intros toks' [= <-].
    destruct toks as [|t toks]; [discriminate|]. injection Hrun as <-. reflexivity.
Qed.

Lemma set_column_lines_stored_witness :
  (exists l, clines (keys (with_clines ["|"; ""; "|"] (plain 2 []))) = Some l /\
             len l = ncols (plain 2 []) + 1) /\
  clines (keys (with_clines ["|"; "|"; "|"] (plain 2 []))) = Some ["|"; "|"; "|"].
Proof.
  split.
  - apply (proj1 (set_column_lines_stored (plain 2 []) _ (LinesInts [0; -1])
                    ltac:(simpl; lia) eq_refl)). reflexivity.
  - apply (proj2 (set_column_lines_stored (plain 2 []) _ (LinesToks ["|"; "|"; "|"])
                    ltac:(simpl; lia) eq_refl) ["|"; "|"; "|"]). reflexivity.
Defined.

(** ** [set_column_line] *)

Lemma position_last (n : nat) : position (S n) (-1) = Some n.
Proof.
  unfold position.
  replace (0 <=? -1) with false by reflexivity. simpl andb.
  destruct (Z.leb_spec (- Z.of_nat (S n)) (-1)); [|lia].
  simpl. f_equal. lia.
Qed.

Lemma position_len (n : nat) : position n (Z.of_nat n) = None.
Proof.
  unfold position.
  destruct (Z.leb_spec 0 (Z.of_nat n)); [|lia].
  destruct (Z.ltb_spec (Z.of_nat n) (Z.of_nat n)); [lia|]. simpl.
  destruct (Z.ltb_spec (Z.of_nat n) 0); [lia|]. rewrite andb_false_r. reflexivity.
Qed.

(** With no separators configured, index [-1] sets position [ncols], the
    rightmost of the [ncols + 1] positions. *)
Lemma set_column_line_last (self : CSVToLaTeX) (tok : string) :
  0 <= ncols self -> clines (keys self) = None ->
  set_column_line (-1) tok self =
    (Ok tt, with_clines (<[Z.to_nat (ncols self) := tok]> (list_mul "" (ncols self + 1))) self).
Proof.
  intros Hn Hc. unfold set_column_line. unfold bind at 1, get.
  rewrite Hc. unfold bind at 1. simpl.
  unfold bind, get, lift, setitem, list_mul. simpl.
  rewrite length_replicate.
  replace (Z.to_nat (ncols self + 1)) with (S (Z.to_nat (ncols self))) by lia.
  rewrite position_last. reflexivity.
Qed.

(** Index [ncols + 1] is past the last position and raises [IndexError],
    for every column count. *)
Lemma set_column_line_ncols_plus_1 (self : CSVToLaTeX) (tok : string) :
  0 <= ncols self -> clines (keys self) = None ->
  set_column_line (ncols self + 1) tok self =
    (Raise IndexError, with_clines (list_mul "" (ncols self + 1)) self).
Proof.
  intros Hn Hc. unfold set_column_line. unfold bind at 1, get.
  rewrite Hc. unfold bind at 1. simpl.
  unfold bind, get, lift, setitem, list_mul. simpl.
  rewrite length_replicate.
  assert (E : position (Z.to_nat (ncols self + 1)) (ncols self + 1) = None).
  { rewrite <- (position_len (Z.to_nat (ncols self + 1))). f_equal. lia. }
  rewrite E. reflexivity.
Qed.

(** C6 at a failing input: two columns, no separators configured yet.
    Index [-1] and index [0] set the rightmost and the leftmost of the three
    positions, all three first set to empty.  Index [ncols + 1 = 3] is past
    the end of the three positions: the call raises [IndexError] and leaves
    them all empty. *)
Theorem set_column_line_past_the_end :
  let self := plain 2 [] in
  set_column_line (-1) "|" self = (Ok tt, with_clines [""; ""; "|"] self) /\
  set_column_line 0 "|" self = (Ok tt, with_clines ["|"; ""; ""] self) /\
  set_column_line 3 "|" self = (Raise IndexError, with_clines [""; ""; ""] self).
Proof. repeat split. Qed.

(** ** [tolatex]: what it does to the model *)

Lemma unchanged_refl o : unchanged o o.
Proof. repeat split. Qed.

Lemma unchanged_trans o1 o2 o3 : unchanged o1 o2 -> unchanged o2 o3 -> unchanged o1 o3.
Proof.
  intros (Hn & Hc & Hk & Hf & Hi & Hh) (Hn' & Hc' & Hk' & Hf' & Hi' & Hh').
  repeat split; try congruence.
  intros Hr. rewrite Hh', Hh; try assumption; try reflexivity.
  unfold restyles, getattr_include_headers in *. rewrite Hk, Hi. exact Hr.
Qed.

Lemma unchanged_with_reader rows o : unchanged o (with_reader rows o).
Proof. repeat split. Qed.

Section Keeps.
Context {A B : Type}.

Lemma keeps_ret (a : A) : keeps (ret a).
Proof. intros w. apply unchanged_refl. Qed.

Lemma keeps_lift (r : res A) : keeps (lift r).
Proof. intros w. apply unchanged_refl. Qed.

Lemma keeps_bind (c : M world A) (k : A -> M world B) :
  keeps c -> (forall a, keeps (k a)) -> keeps (bind c k).
Proof.
  intros Hc Hk w. specialize (Hc w). unfold bind.
  destruct (c w) as [[a|e] w'] eqn:E; simpl in *; [|exact Hc].
  eapply unchanged_trans; [exact Hc | apply Hk].
Qed.
End Keeps.

Lemma keeps_this : keeps this.
Proof. intros w. apply unchanged_refl. Qed.

Lemma keeps_write s : keeps (write s).
Proof. intros w. apply unchanged_refl. Qed.

Lemma keeps_assign_reader rows : keeps (assign (with_reader rows)).
Proof. intros [o f]. apply unchanged_with_reader. Qed.

Lemma keeps_write_headers : keeps write_headers.
Proof.
  intros [o f]. unfold write_headers, bind, this. simpl.
  destruct (truthy (getattr_include_headers o)) eqn:Et; [|apply unchanged_refl].
  destruct (bold (keys o)) as [[|]|] eqn:Eb; simpl.
  - destruct (headers o) as [hs|] eqn:Eh; simpl; [|apply unchanged_refl].
    repeat split. unfold restyles. rewrite Et, Eb. discriminate.
  - destruct (headers o); apply unchanged_refl.
  - destruct (headers o); apply unchanged_refl.
Qed.

Lemma keeps_rows_loop all_lines rl rows :
  forall idx rownr, keeps (rows_loop all_lines rl rows idx rownr).
Proof.
  induction rows as [|r rest IH]; intros idx rownr; simpl.
  - apply keeps_ret.
  - apply keeps_bind; [apply keeps_assign_reader | intros _].
    apply keeps_bind; [apply keeps_this | intros self].
    apply keeps_bind; [apply keeps_lift | intros line].
    apply keeps_bind; [apply keeps_write | intros _].
    destruct (separator_after all_lines rl idx rownr) as [sep idx'].
    apply keeps_bind; [destruct sep; [apply keeps_write | apply keeps_ret] | intros _].
    apply IH.
Qed.

(** [resolve_colstr] stores the default alignment when none was set, does
    nothing else to the model and writes nothing. *)
Lemma resolve_colstr_state (w : world) :
  snd (resolve_colstr w) = (fill_columns (fst w), snd w).
Proof.
  destruct w as [o f]. unfold resolve_colstr, fill_columns, bind, this, lift. simpl.
  destruct (columns o) as [[s|l]|]; reflexivity.
Qed.

Lemma keys_filled (o : CSVToLaTeX) : keys (fill_columns o) = keys o.
Proof. unfold fill_columns. destruct (columns o); reflexivity. Qed.

(** After the column specification is resolved, [tolatex] keeps the
    configuration. *)
Lemma keeps_tolatex_body : keeps tolatex_body.
Proof.
  apply keeps_bind; [apply keeps_this | intros self].
  destruct (row_policy (keys self)) as [all_lines rl].
  apply keeps_bind; [apply keeps_write_headers | intros _].
  apply keeps_bind; [apply keeps_this | intros self'].
  apply keeps_bind; [apply keeps_rows_loop | intros _].
  apply keeps_bind; [apply keeps_lift | intros last].
  destruct (last =? -1); [apply keeps_write | apply keeps_ret].
Qed.

Lemma keeps_tolatex_tail (colstr : string) :
  keeps (write (table_open colstr) ;; tolatex_body ;; write table_close).
Proof.
  apply keeps_bind; [apply keeps_write | intros _].
  apply keeps_bind; [apply keeps_tolatex_body | intros _].
  apply keeps_write.
Qed.

Lemma tolatex_unchanged (o : CSVToLaTeX) (f : string) :
  unchanged (fill_columns o) (fst (snd (tolatex (o, f)))).
Proof.
  unfold tolatex. unfold bind at 1. simpl.
  unfold bind at 1.
  pose proof (resolve_colstr_state (o, "")) as Hs.
  destruct (resolve_colstr (o, "")) as [[colstr|e] w1]; simpl in Hs; subst w1.
  - apply (keeps_tolatex_tail colstr (fill_columns o, "")).
  - apply unchanged_refl.
Qed.

(** C4, the claim as stated fails: a model on which no alignment was set
    has [columns = None] before [tolatex] and the default list after it. *)
Lemma render_stores_default_columns :
  columns (plain 3 []) = None /\
  columns (after (render (plain 3 []) [])) = Some (ColList ["c"; "c"; "c"]) /\
  columns (after (render (plain 3 []) [])) <> columns (plain 3 []).
Proof. repeat split. vm_compute. discriminate. Qed.

(** C4 as amended: whatever the model and the rows, and whether [tolatex]
    returns or raises, the column count, the keys (bold flag, column and row
    separators), the formatters and [include_headers] are afterwards what
    they were before; the alignment is what it was when one was set, and the
    default, one [c] per column, when none was; the headers are what they
    were as long as they are not rendered bold. *)
Theorem render_keeps_configuration (self : CSVToLaTeX) (rows : list row) :
  let self' := after (render self rows) in
  ncols self' = ncols self /\
  keys self' = keys self /\
  formatters self' = formatters self /\
  include_headers self' = include_headers self /\
  columns self' = match columns self with
                  | None => Some (ColList (list_mul "c" (ncols self)))
                  | Some c => Some c
                  end /\
  (restyles self = false -> headers self' = headers self).
Proof.
  pose proof (tolatex_unchanged (with_reader rows self) "") as H.
  destruct H as (Hn & Hc & Hk & Hf & Hi & Hh).
  unfold render, after. simpl.
  assert (E : forall {T} (g : CSVToLaTeX -> T),
             (forall v o, g (with_columns v o) = g o) ->
             (forall v o, g (with_reader v o) = g o) ->
             g (fill_columns (with_reader rows self)) = g self).
  { intros T g Hg Hg'. unfold fill_columns. simpl.
    destruct (columns self); [apply Hg' | rewrite Hg; apply Hg']. }
  rewrite Hn, Hk, Hf, Hi, Hc.
  repeat split; try (apply E; reflexivity).
  - unfold fill_columns. change (columns (with_reader rows self)) with (columns self).
    destruct (columns self) eqn:Ec; simpl; [exact Ec | reflexivity].
  - intros Hr. rewrite Hh.
    + apply E; reflexivity.
    + rewrite <- Hr. unfold restyles, getattr_include_headers.
      rewrite (E _ keys), (E _ include_headers); reflexivity.
Qed.

Lemma render_keeps_configuration_witness :
  restyles (plain 3 []) = false /\
  headers (after (render (plain 3 []) [["1"; "2"; "3"]])) = headers (plain 3 []).
Proof.
  split; [reflexivity|].
  apply (render_keeps_configuration (plain 3 []) [["1"; "2"; "3"]]). reflexivity.
Defined.

(** ** [tolatex]: the text it writes *)

Lemma str_app_assoc (a b c : string) : (a +:+ b) +:+ c = a +:+ (b +:+ c).
Proof.
  induction a as [|x a IH]; [reflexivity|].
  change ((String x a +:+ b) +:+ c) with (String x ((a +:+ b) +:+ c)).
  rewrite IH. reflexivity.
Qed.

Lemma str_app_nil_r (a : string) : a +:+ "" = a.
Proof.
  induction a as [|x a IH]; [reflexivity|].
  change (String x a +:+ "") with (String x (a +:+ "")). rewrite IH. reflexivity.
Qed.

Section Appends.
Context {A B : Type}.

Lemma appends_quiet (c : M world A) :
  (forall w, snd (snd (c w)) = snd w) -> appends c.
Proof. intros H w. exists "". rewrite H, str_app_nil_r. reflexivity. Qed.

Lemma appends_bind (c : M world A) (k : A -> M world B) :
  appends c -> (forall a, appends (k a)) -> appends (bind c k).
Proof.
  intros Hc Hk w. destruct (Hc w) as [t Ht]. unfold bind.
  destruct (c w) as [[a|e] w1]; simpl in *.
  - destruct (Hk a w1) as [t' Ht']. exists (t +:+ t').
    rewrite Ht', Ht. apply str_app_assoc.
  - exists t. exact Ht.
Qed.
End Appends.

Lemma appends_write s : appends (write s).
Proof. intros w. exists s. reflexivity. Qed.

Lemma appends_write_headers : appends write_headers.
Proof.
  apply appends_bind; [apply appends_quiet; reflexivity | intros self].
  destruct (truthy (getattr_include_headers self)); [|apply appends_quiet; reflexivity].
  apply appends_bind.
  { destruct (bold (keys self)) as [[|]|]; try (apply appends_quiet; reflexivity).
    destruct (headers self); apply appends_quiet; intros [o f]; reflexivity. }
  intros _. apply appends_bind; [apply appends_quiet; reflexivity | intros self'].
  destruct (headers self'); [|apply appends_quiet; reflexivity].
  repeat (apply appends_bind; [apply appends_write | intros _]). apply appends_write.
Qed.

Lemma appends_rows_loop all_lines rl rows :
  forall idx rownr, appends (rows_loop all_lines rl rows idx rownr).
Proof.
  induction rows as [|r rest IH]; intros idx rownr; simpl.
  - apply appends_quiet. reflexivity.
  - apply appends_bind; [apply appends_quiet; intros [o f]; reflexivity | intros _].
    apply appends_bind; [apply appends_quiet; reflexivity | intros self].
    apply appends_bind; [apply appends_quiet; reflexivity | intros line].
    apply appends_bind; [apply appends_write | intros _].
    destruct (separator_after all_lines rl idx rownr) as [sep idx'].
    apply appends_bind; [|intros _; apply IH].
    destruct sep; [apply appends_write | apply appends_quiet; reflexivity].
Qed.

Lemma appends_tolatex_body : appends tolatex_body.
Proof.
  apply appends_bind; [apply appends_quiet; reflexivity | intros self].
  destruct (row_policy (keys self)) as [all_lines rl].
  apply appends_bind; [apply appends_write_headers | intros _].
  apply appends_bind; [apply appends_quiet; reflexivity | intros self'].
  apply appends_bind; [apply appends_rows_loop | intros _].
  apply appends_bind; [apply appends_quiet; reflexivity | intros last].
  destruct (last =? -1); [apply appends_write | apply appends_quiet; reflexivity].
Qed.

(** [tolatex], statement by statement. *)
Lemma tolatex_steps (o : CSVToLaTeX) (f : string) :
  tolatex (o, f) =
    match resolve_colstr (o, "") with
    | (Ok colstr, _) =>
        match tolatex_body (fill_columns o, table_open colstr) with
        | (Ok _, w) => (Ok tt, (fst w, snd w +:+ table_close))
        | (Raise e, w) => (Raise e, w)
        end
    | (Raise e, _) => (Raise e, (fill_columns o, ""))
    end.
Proof.
  unfold tolatex, bind. simpl.
  pose proof (resolve_colstr_state (o, "")) as Hs.
  destruct (resolve_colstr (o, "")) as [[colstr|e] w1]; simpl in Hs; subst w1;
    [|reflexivity].
  simpl. destruct (tolatex_body _) as [[[]|e] w2]; reflexivity.
Qed.

(** What holds of C1 whenever [tolatex] returns: the text begins with the
    opening directive, which carries the resolved column specification, and
    ends with the closing directive. *)
Lemma tolatex_shape (o : CSVToLaTeX) (f : string) :
  outcome (tolatex (o, f)) = Ok tt ->
  exists colstr body,
    fst (resolve_colstr (o, "")) = Ok colstr /\
    output (tolatex (o, f)) = table_open colstr +:+ body +:+ table_close.
Proof.
  unfold outcome, output. rewrite tolatex_steps.
  destruct (resolve_colstr (o, "")) as [[colstr|e] w1]; [|discriminate].
  destruct (appends_tolatex_body (fill_columns o, table_open colstr)) as [t Ht].
  destruct (tolatex_body (fill_columns o, table_open colstr)) as [[[]|e] w2];
    simpl in *; [|discriminate].
  intros _. exists colstr, t. split; [reflexivity|].
  rewrite Ht. apply str_app_assoc.
Qed.

(** ** [tolatex]: when it returns *)

Lemma getitem_in_range {A} (l : list A) (i : Z) :
  0 <= i < len l -> is_ok (getitem l i) = true.
Proof.
  unfold len, getitem, position. intros [H0 H1].
  destruct (Z.leb_spec 0 i); [|lia].
  destruct (Z.ltb_spec i (Z.of_nat (length l))); [|lia]. simpl.
  destruct (l !! Z.to_nat i) eqn:E; [reflexivity|].
  apply lookup_ge_None in E. lia.
Qed.

Lemma getitem_last {A} (l : list A) : l <> [] -> is_ok (getitem l (-1)) = true.
Proof.
  destruct l as [|x l]; [congruence | intros _].
  unfold getitem. change (length (x :: l)) with (S (length l)).
  rewrite position_last.
  destruct ((x :: l) !! length l) eqn:E; [reflexivity|].
  apply lookup_ge_None in E. simpl in E. lia.
Qed.

Lemma range_bounds (n i : Z) : In i (range n) -> 0 <= i < n.
Proof.
  unfold range. rewrite in_map_iff. intros (k & <- & Hk).
  apply in_seq in Hk. lia.
Qed.

Lemma fold_res_ok {A B} (f : B -> A -> res B) (l : list A) :
  (forall b x, In x l -> is_ok (f b x) = true) ->
  forall b, is_ok (fold_res f l b) = true.
Proof.
  induction l as [|x l IH]; intros Hf b; simpl; [reflexivity|].
  pose proof (Hf b x (or_introl eq_refl)) as Hx.
  destruct (f b x) as [b'|e]; [|discriminate]. simpl.
  apply IH. intros b0 y Hy. apply Hf. right. exact Hy.
Qed.

Lemma compose_colstr_ok (n : Z) (cols lines : list string) :
  0 <= n -> len cols = n -> len lines = n + 1 ->
  is_ok (compose_colstr n cols lines) = true.
Proof.
  intros Hn Hc Hl. unfold compose_colstr.
  pose proof (getitem_in_range lines 0 ltac:(lia)) as H0.
  destruct (getitem lines 0) as [c0|e]; [|discriminate]. simpl.
  apply fold_res_ok. intros colstr i Hi. apply range_bounds in Hi.
  pose proof (getitem_in_range cols i ltac:(lia)) as H1.
  pose proof (getitem_in_range lines (i + 1) ltac:(lia)) as H2.
  destruct (getitem cols i); [|discriminate].
  destruct (getitem lines (i + 1)); [|discriminate]. reflexivity.
Qed.

Lemma resolve_colstr_ok (o : CSVToLaTeX) (f : string) :
  well_configured o -> is_ok (fst (resolve_colstr (o, f))) = true.
Proof.
  intros (Ha & _ & _). unfold resolve_colstr, bind, this. simpl.
  assert (Hsep : separators_fit o ->
            forall l, len l = ncols o ->
              is_ok (compose_colstr (ncols o) l
                       match clines (keys o) with
                       | Some ls => ls
                       | None => list_mul "" (ncols o + 1)
                       end) = true).
  { intros [Hn Hs] l Hl. apply compose_colstr_ok; [exact Hn | exact Hl |].
    destruct (clines (keys o)); [exact Hs | apply len_list_mul; lia]. }
  destruct (columns o) as [[s|l]|]; simpl.
  - reflexivity.
  - destruct Ha as [Hl Hs]. apply (Hsep Hs l Hl).
  - apply (Hsep Ha). apply len_list_mul, Ha.
Qed.

Lemma write_headers_ok (o : CSVToLaTeX) (f : string) :
  (truthy (getattr_include_headers o) = true -> headers o <> None) ->
  exists o' f',
    write_headers (o, f) = (Ok tt, (o', f')) /\
    reader o' = reader o /\ ncols o' = ncols o /\ formatters o' = formatters o.
Proof.
  intros H. unfold write_headers, bind, this. simpl.
  destruct (truthy (getattr_include_headers o)); [|eauto 6].
  specialize (H eq_refl).
  destruct (headers o) as [hs|] eqn:Eh; [|congruence].
  destruct (bold (keys o)) as [[|]|]; simpl; rewrite ?Eh; simpl; eauto 6.
Qed.

Lemma rows_loop_ok all_lines rl rows :
  forall idx rownr w,
    formats (fst w) rows ->
    fst (rows_loop all_lines rl rows idx rownr w) = Ok tt.
Proof.
  induction rows as [|r rest IH]; intros idx rownr [o f] Hf; [reflexivity|].
  apply Forall_cons in Hf as [Hr Hrest]. simpl in *.
  unfold bind at 1. simpl. unfold bind at 1. simpl. unfold bind at 1, lift.
  change (format_row (with_reader rest o) r) with (format_row o r).
  destruct (format_row o r) as [line|e]; [|discriminate].
  unfold bind at 1. simpl.
  destruct (separator_after all_lines rl idx rownr) as [[|] idx'];
    unfold bind at 1; simpl; apply IH; exact Hrest.
Qed.

(** What holds of C1 on a well-configured model whose rows can all be
    formatted: [tolatex] returns. *)
Lemma tolatex_returns (o : CSVToLaTeX) (f : string) :
  well_configured o -> formats o (reader o) -> outcome (tolatex (o, f)) = Ok tt.
Proof.
  intros Hw Hf. unfold outcome. rewrite tolatex_steps.
  pose proof (resolve_colstr_ok o "" Hw) as Hc.
  destruct (resolve_colstr (o, "")) as [[colstr|e] w1]; [clear Hc|discriminate].
  destruct Hw as (_ & Hh & Hs).
  assert (Hb : fst (tolatex_body (fill_columns o, table_open colstr)) = Ok tt);
    [|destruct (tolatex_body _) as [[[]|e] w2]; [reflexivity | discriminate]].
  unfold tolatex_body. unfold bind at 1, this. simpl. rewrite keys_filled.
  destruct (row_policy (keys o)) as [all_lines rl]. simpl in Hs.
  destruct (write_headers_ok (fill_columns o) (table_open colstr))
    as (o' & f' & Ew & Er & En & Efs).
  { unfold fill_columns. destruct (columns o); exact Hh. }
  unfold bind at 1. rewrite Ew. unfold bind at 1. simpl.
  pose proof (rows_loop_ok all_lines rl (reader o') 0%nat 0 (o', f')) as Hl.
  unfold bind at 1.
  destruct (rows_loop all_lines rl (reader o') 0 0 (o', f')) as [[[]|e] w3];
    simpl in Hl.
  - unfold bind, lift. pose proof (getitem_last rl Hs) as Hg.
    destruct (getitem rl (-1)) as [last|e]; [|discriminate].
    destruct (last =? -1); reflexivity.
  - exfalso. assert (Raise e = Ok tt :> res unit) as Habs; [|discriminate Habs].
    apply Hl. rewrite Er.
    assert (E : reader (fill_columns o) = reader o)
      by (unfold fill_columns; destruct (columns o); reflexivity).
    rewrite E. eapply Forall_impl; [exact Hf|]. intros r Hr. simpl.
    unfold format_row in *. rewrite En, Efs.
    assert (E1 : ncols (fill_columns o) = ncols o)
      by (unfold fill_columns; destruct (columns o); reflexivity).
    assert (E2 : formatters (fill_columns o) = formatters o)
      by (unfold fill_columns; destruct (columns o); reflexivity).
    rewrite E1, E2. exact Hr.
Qed.

(** Both together: on a well-configured model whose rows can all be
    formatted, the text begins with the opening directive and ends with the
    closing directive. *)
Lemma tolatex_well_configured (o : CSVToLaTeX) (f : string) :
  well_configured o -> formats o (reader o) ->
  outcome (tolatex (o, f)) = Ok tt /\
  exists colstr body,
    fst (resolve_colstr (o, "")) = Ok colstr /\
    output (tolatex (o, f)) = table_open colstr +:+ body +:+ table_close.
Proof.
  intros Hw Hf. pose proof (tolatex_returns o f Hw Hf) as Hr.
  split; [exact Hr | apply tolatex_shape, Hr].
Qed.

(** The default formatters format every row that has a cell for each
    column. *)
Lemma getitem_list_mul {A} (x : A) (n i : Z) :
  0 <= i < n -> getitem (list_mul x n) i = Ok x.
Proof.
  intros H. unfold getitem, list_mul, position. rewrite length_replicate.
  destruct (Z.leb_spec 0 i); [|lia].
  destruct (Z.ltb_spec i (Z.of_nat (Z.to_nat n))); [|lia]. simpl.
  rewrite lookup_replicate_2; [reflexivity | lia].
Qed.

Lemma map_res_ok {A B} (f : A -> res B) (l : list A) :
  (forall x, In x l -> is_ok (f x) = true) -> is_ok (map_res f l) = true.
Proof.
  induction l as [|x l IH]; intros Hf; simpl; [reflexivity|].
  pose proof (Hf x (or_introl eq_refl)) as Hx.
  destruct (f x) as [y|e]; [|discriminate]. simpl.
  specialize (IH (fun y Hy => Hf y (or_intror Hy))).
  destruct (map_res f l); [reflexivity | discriminate].
Qed.

Lemma formats_default (n : Z) (src rows : list row) :
  Forall (fun r => n <= len r) rows -> formats (plain n src) rows.
Proof.
  intros H. eapply Forall_impl; [exact H|]. intros r Hr. simpl in *.
  unfold format_row. simpl.
  assert (Hm : is_ok (map_res
            (fun i => rbind (getitem (list_mul str n) i)
                        (fun f => rbind (getitem r i) (fun cell => f cell)))
            (range n)) = true).
  { apply map_res_ok. intros i Hi. apply range_bounds in Hi.
    rewrite getitem_list_mul by exact Hi. simpl.
    pose proof (getitem_in_range r i ltac:(lia)) as Hg.
    destruct (getitem r i); [reflexivity | discriminate]. }
  destruct (map_res _ (range n)); [reflexivity | discriminate].
Qed.

(** So with the default configuration (no alignment, separators, headers or
    formatters set) [tolatex] returns on every finite row source whose rows
    have a cell for each column. *)
Lemma tolatex_default_returns (n : Z) (rows : list row) (f : string) :
  0 <= n -> Forall (fun r => n <= len r) rows ->
  outcome (tolatex (plain n rows, f)) = Ok tt.
Proof.
  intros Hn Hrows. apply tolatex_returns.
  - repeat split; try assumption; simpl; discriminate.
  - apply formats_default, Hrows.
Qed.

(** ** [tolatex]: row separators set to [all] *)

(** With ["all"] the flag [all_lines] is set and the list [rlines] stays
    empty. *)
Lemma policy_all (k : keys_t) :
  rlines k = Some (RowStr "all") -> row_policy k = (true, []).
Proof. intros H. unfold row_policy. rewrite H. reflexivity. Qed.

(** When the resolved list of row indices is empty, [rlines[-1]] on line
    281 raises: [tolatex] does not return and never reaches the closing
    directive. *)
Lemma tolatex_body_no_sentinel (w : world) :
  snd (row_policy (keys (fst w))) = [] -> is_ok (fst (tolatex_body w)) = false.
Proof.
  intros H. unfold tolatex_body. unfold bind at 1, this. simpl.
  destruct (row_policy (keys (fst w))) as [all_lines rl]. simpl in H. subst rl.
  do 3 (apply bind_never_ok; intros).
  reflexivity.
Qed.

Lemma tolatex_no_sentinel (o : CSVToLaTeX) (f : string) :
  snd (row_policy (keys o)) = [] -> is_ok (outcome (tolatex (o, f))) = false.
Proof.
  intros H. unfold outcome. rewrite tolatex_steps.
  destruct (resolve_colstr (o, "")) as [[colstr|e] w1]; [|reflexivity].
  pose proof (tolatex_body_no_sentinel (fill_columns o, table_open colstr)) as Hb.
  simpl in Hb. rewrite keys_filled in Hb. specialize (Hb H).
  destruct (tolatex_body _) as [[[]|e] w2]; [discriminate Hb | reflexivity].
Qed.

(** So it is with the row separators set to ["all"], whatever the rest of
    the model and the rows. *)
Lemma render_all_never_returns (self : CSVToLaTeX) (rows : list row) :
  rlines (keys self) = Some (RowStr "all") ->
  is_ok (outcome (render self rows)) = false.
Proof.
  intros H. apply tolatex_no_sentinel. simpl. rewrite (policy_all _ H). reflexivity.
Qed.

(** C1 at a failing input: one column, the single row [a], row separators
    set to ["all"].  [tolatex] raises [IndexError] after the row and its
    separator; the text written ends there, without the closing
    directive. *)
Theorem tolatex_all_no_close :
  let self := with_rlines (RowStr "all") (plain 1 [["a"]]) in
  set_row_lines (RowStr "all") (plain 1 [["a"]]) = (Ok tt, self) /\
  outcome (tolatex (self, "")) = Raise IndexError /\
  output (tolatex (self, "")) = text ["\begin{tabular}{c}"; "a\\"; "\hline"].
Proof. repeat split. Qed.

(** ** [tolatex]: the scenario of section 8 *)

(** C9: with three columns, rows [1,2,3] and [4,5,6], default alignment and
    formatters, no headers and row separators set to ["none"], [tolatex]
    returns and writes exactly the opening line, the two rows, each closed
    by two backslashes and a newline, and the closing directive. *)
Theorem scenario_three_columns :
  let rows := [["1"; "2"; "3"]; ["4"; "5"; "6"]] in
  let self := plain 3 rows in
  set_row_lines (RowStr "none") self = (Ok tt, with_rlines (RowStr "none") self) /\
  outcome (tolatex (with_rlines (RowStr "none") self, "")) = Ok tt /\
  output (tolatex (with_rlines (RowStr "none") self, "")) =
    text ["\begin{tabular}{ccc}"; "1 & 2 & 3\\"; "4 & 5 & 6\\"] +:+ "\end{tabular}".
Proof. repeat split. Qed.

(** ** [tolatex]: rendering twice *)

Lemma resolve_colstr_filled (o : CSVToLaTeX) (f : string) :
  resolve_colstr (fill_columns o, f) = resolve_colstr (o, f).
Proof.
  unfold fill_columns. destruct (columns o) as [c|] eqn:E; [reflexivity|].
  unfold resolve_colstr, bind, this, assign, on_fst, modify, ret. simpl.
  rewrite E. reflexivity.
Qed.

Lemma tolatex_filled (o : CSVToLaTeX) (f : string) :
  tolatex (fill_columns o, f) = tolatex (o, f).
Proof.
  unfold tolatex. unfold bind at 1. unfold bind at 3. simpl.
  unfold bind at 1. unfold bind at 2.
  rewrite resolve_colstr_filled. reflexivity.
Qed.

Lemma restyles_filled (rows : list row) (o : CSVToLaTeX) :
  restyles (fill_columns (with_reader rows o)) = restyles o.
Proof. unfold fill_columns. simpl. destruct (columns o); reflexivity. Qed.

(** A model with the configuration and the headers of [o] is [o] up to its
    reader. *)
Lemma unchanged_eq (o o' : CSVToLaTeX) :
  unchanged o o' -> restyles o = false -> with_reader (reader o) o' = o.
Proof.
  intros (Hn & Hc & Hk & Hf & Hi & Hh) Hr. specialize (Hh Hr).
  destruct o, o'. simpl in *. subst. reflexivity.
Qed.

(** What holds of C3 by design: as long as the headers are not rendered
    bold, rendering the model a second time against the same rows gives the
    same outcome and the same text as the first time. *)
Lemma render_twice_same (self : CSVToLaTeX) (rows : list row) :
  restyles self = false ->
  render (after (render self rows)) rows = render self rows.
Proof.
  intros Hr.
  pose proof (tolatex_unchanged (with_reader rows self) "") as H.
  apply unchanged_eq in H; [|rewrite restyles_filled; exact Hr].
  assert (E : reader (fill_columns (with_reader rows self)) = rows).
  { unfold fill_columns. simpl. destruct (columns self); reflexivity. }
  rewrite E in H. unfold render at 1. unfold after, render.
  rewrite H. apply tolatex_filled.
Qed.

(** C3 at a failing input: two columns, headers [A] and [B] set bold, no
    data row.  The first [tolatex] stores the wrapped headers back into
    [self.headers]; rendering the model again, against the same rows, wraps
    them a second time and the two texts differ. *)
Theorem render_twice_bold_differs :
  let self := with_bold true (with_include_headers (Some true)
                (with_headers (Some ["A"; "B"]) (plain 2 []))) in
  set_headers ["A"; "B"] true (plain 2 []) = (Ok tt, self) /\
  let first := render self [] in
  let second := render (after first) [] in
  outcome first = Ok tt /\ outcome second = Ok tt /\
  output first =
    text ["\begin{tabular}{cc}"; "\hline"; "\textbf{A} & \textbf{B}\\"; "\hline"]
    +:+ "\end{tabular}" /\
  output second =
    text ["\begin{tabular}{cc}"; "\hline";
          "\textbf{\textbf{A}} & \textbf{\textbf{B}}\\"; "\hline"]
    +:+ "\end{tabular}" /\
  output first <> output second.
Proof. repeat split. vm_compute. discriminate. Qed.

(** * Further properties of the class *)

(** ** The constructor: when it raises *)

(** X1: the constructor raises [ValueError] when neither a column count nor
    the header flag is given, [StopIteration] when the headers are to be
    read from a source that yields no row, and [ValueError] when the given
    column count is not the number of cells of the first row (taking the
    comment marker off never changes that number); in every other case it
    returns. *)
Theorem init_raises (rows : list row) (ncols_arg : option Z) (header : bool) :
  (ncols_arg = None -> header = false ->
     __init__ rows ncols_arg header = Raise ValueError) /\
  (header = true -> rows = [] ->
     __init__ rows ncols_arg header = Raise StopIteration) /\
  (forall first rest k,
     header = true -> rows = first :: rest -> ncols_arg = Some k -> k <> len first ->
     __init__ rows ncols_arg header = Raise ValueError) /\
  is_ok (__init__ rows ncols_arg header) =
    if header
    then match rows, ncols_arg with
         | [], _ => false
         | first :: _, Some k => len first =? k
         | _ :: _, None => true
         end
    else match ncols_arg with Some _ => true | None => false end.
Proof.
  repeat split.
  - intros -> ->. reflexivity.
  - intros -> ->. destruct ncols_arg; reflexivity.
  - intros first rest k -> -> -> Hk. unfold __init__.
    rewrite len_read_headers.
    destruct (Z.eqb_spec (len first) k); [congruence | reflexivity].
  - unfold __init__. destruct header, ncols_arg as [k|], rows as [|first rest];
      try reflexivity.
    rewrite len_read_headers. destruct (len first =? k); reflexivity.
Qed.

Lemma init_raises_witness :
  __init__ [] None false = Raise ValueError /\
  __init__ [] (Some 2) true = Raise StopIteration /\
  __init__ [["#a"; "b"]] (Some 3) true = Raise ValueError.
Proof.
  split; [|split].
  - apply (proj1 (init_raises [] None false)); reflexivity.
  - apply (proj1 (proj2 (init_raises [] (Some 2) true))); reflexivity.
  - apply (proj1 (proj2 (proj2 (init_raises [["#a"; "b"]] (Some 3) true)))
             ["#a"; "b"] [] 3); try reflexivity.
    vm_compute. discriminate.
Defined.

(** ** [set_columns] on a string, in general *)



Lemma set_columns_run (self : CSVToLaTeX) (cols : colspec) :
  len (colspec_items cols) = ncols self ->
  set_columns cols self =
    (Ok tt, with_columns (Some (ColList (normalize <$> colspec_items cols))) self).
Proof.
  intros H. unfold set_columns.
  destruct cols as [s|l]; unfold bind at 1, modify, ret; unfold bind at 1, get;
    simpl in *; rewrite H, Z.eqb_refl; simpl; unfold bind, modify.
  - apply (columns_append_all (with_columns (Some (ColStr s)) self) (chars s) []).
  - apply (columns_append_all self l []).
Qed.





(** ** What the calls keep *)

Section Untouched.
Context {T : Type} (g : CSVToLaTeX -> T).

Lemma untouched_quiet {A} (c : M world A) :
  (forall w, fst (snd (c w)) = fst w) -> untouched g c.
Proof. intros H w. rewrite H. reflexivity. Qed.

Lemma untouched_bind {A B} (c : M world A) (k : A -> M world B) :
  untouched g c -> (forall a, untouched g (k a)) -> untouched g (bind c k).
Proof.
  intros Hc Hk w. specialize (Hc w). unfold bind.
  destruct (c w) as [[a|e] w1]; simpl in *; [|exact Hc].
  rewrite Hk. exact Hc.
Qed.

Hypothesis g_reader : forall v o, g (with_reader v o) = g o.
Hypothesis g_columns : forall v o, g (with_columns v o) = g o.

Lemma untouched_rows_loop all_lines rl rows :
  forall idx rownr, untouched g (rows_loop all_lines rl rows idx rownr).
Proof.
  induction rows as [|r rest IH]; intros idx rownr; simpl.
  - apply untouched_quiet. reflexivity.
  - apply untouched_bind; [intros [o f]; apply g_reader | intros _].
    apply untouched_bind; [apply untouched_quiet; reflexivity | intros self].
    apply untouched_bind; [apply untouched_quiet; reflexivity | intros line].
    apply untouched_bind; [apply untouched_quiet; reflexivity | intros _].
    destruct (separator_after all_lines rl idx rownr) as [sep idx'].
    apply untouched_bind; [|intros _; apply IH].
    destruct sep; apply untouched_quiet; reflexivity.
Qed.

Lemma untouched_tolatex_body :
  untouched g write_headers -> untouched g tolatex_body.
Proof.
  intros Hh.
  apply untouched_bind; [apply untouched_quiet; reflexivity | intros self].
  destruct (row_policy (keys self)) as [all_lines rl].
  apply untouched_bind; [exact Hh | intros _].
  apply untouched_bind; [apply untouched_quiet; reflexivity | intros self'].
  apply untouched_bind; [apply untouched_rows_loop | intros _].
  apply untouched_bind; [apply untouched_quiet; reflexivity | intros last].
  destruct (last =? -1); apply untouched_quiet; reflexivity.
Qed.

Lemma untouched_tolatex :
  untouched g write_headers -> untouched g tolatex.
Proof.
  intros Hh.
  apply untouched_bind; [apply untouched_quiet; reflexivity | intros _].
  apply untouched_bind.
  { intros w. rewrite resolve_colstr_state. simpl. unfold fill_columns.
    destruct (columns (fst w)); [reflexivity | apply g_columns]. }
  intros colstr.
  apply untouched_bind; [apply untouched_quiet; reflexivity | intros _].
  apply untouched_bind; [apply untouched_tolatex_body, Hh | intros _].
  apply untouched_quiet. reflexivity.
Qed.
End Untouched.

(** [tolatex] may wrap the headers, it never changes how many there are. *)
Lemma header_count_write_headers :
  untouched (fun o => length <$> headers o) write_headers.
Proof.
  intros [o f].
  unfold write_headers, bind, this, write, assign, on_fst, modify, raise, ret. simpl.
  destruct (truthy (getattr_include_headers o)); [|reflexivity].
  destruct (bold (keys o)) as [[|]|]; simpl;
    destruct (headers o) as [hs|] eqn:Eh; simpl; rewrite ?Eh; simpl;
    rewrite ?length_fmap; reflexivity.
Qed.

Lemma header_count_tolatex (o : CSVToLaTeX) (f : string) :
  length <$> headers (fst (snd (tolatex (o, f)))) = length <$> headers o.
Proof.
  apply (untouched_tolatex (fun o => length <$> headers o)); try reflexivity.
  apply header_count_write_headers.
Qed.

(** What one call keeps: the column count and the lengths that go with
    it. *)
Lemma perform_keeps (c : call) (o : CSVToLaTeX) :
  consistent o -> consistent (perform c o) /\ ncols (perform c o) = ncols o.
Proof.
  intros (Hn & Hf & Hh & Hc).
  destruct c as [val | hs b | cols | lines | idx line | lines | fs | idx f | ]; simpl.
  - unfold call_include_headers, getattr_include_headers, bind, get.
    destruct (include_headers o); simpl; unfold consistent; repeat split; auto.
  - unfold set_headers, bind, get, modify.
    destruct (Z.eqb_spec (len hs) (ncols o)) as [E|E]; simpl; unfold consistent; simpl;
      repeat split; auto.
    intros hs' [= <-]. exact E.
  - destruct (Z.eq_dec (len (colspec_items cols)) (ncols o)) as [E|E].
    + rewrite (set_columns_run o cols E). unfold consistent. simpl.
      repeat split; auto.
      intros l [= <-]. unfold len. rewrite length_fmap. exact E.
    + destruct cols as [s|l].
      * rewrite (set_columns_string_refused o s E). unfold consistent. simpl.
        repeat split; auto. discriminate.
      * rewrite set_columns_list. simpl in E.
        destruct (Z.eqb_spec (len l) (ncols o)); [contradiction|].
        unfold consistent. repeat split; auto.
  - unfold set_column_lines, bind, get, modify, lift, ret, raise.
    destruct lines as [s | [|i idxs] | [|t toks]]; simpl;
      try (unfold consistent; repeat split; auto; fail).
    + destruct (str_eq s "all"); [|destruct (str_eq s "none")];
        unfold consistent; repeat split; auto.
    + destruct (rbind _ _); unfold consistent; repeat split; auto.
  - unfold set_column_line, bind, get, modify, lift.
    destruct (clines (keys o)) as [l|] eqn:E; simpl.
    + rewrite E. destruct (setitem l idx line); unfold consistent; repeat split; auto.
    + destruct (setitem _ idx line); unfold consistent; repeat split; auto.
  - unfold consistent. repeat split; auto.
  - unfold set_formatters, bind, get, modify.
    destruct fs as [f|l]; simpl.
    + unfold consistent. simpl. repeat split; auto. apply len_list_mul, Hn.
    + destruct (Z.eqb_spec (len l) (ncols o)); unfold consistent; simpl;
        repeat split; auto.
  - unfold set_formatter, bind, get, modify, lift.
    destruct (setitem (formatters o) idx f) as [l|e] eqn:E; simpl;
      unfold consistent; simpl; repeat split; auto.
    unfold len. rewrite (setitem_length _ _ _ _ E). exact Hf.
  - destruct (tolatex_unchanged o "") as (En & Ec & _ & Ef & _ & _).
    pose proof (header_count_tolatex o "") as Eh.
    assert (Fn : ncols (fill_columns o) = ncols o)
      by (unfold fill_columns; destruct (columns o); reflexivity).
    assert (Ff : formatters (fill_columns o) = formatters o)
      by (unfold fill_columns; destruct (columns o); reflexivity).
    unfold consistent. rewrite En, Ef, Ec, Fn, Ff.
    repeat split; auto.
    + intros hs E. rewrite E in Eh. destruct (headers o) as [hs0|] eqn:E0;
        [|discriminate]. injection Eh as Eh. unfold len. rewrite Eh.
      apply (Hh hs0 eq_refl).
    + intros l. unfold fill_columns. destruct (columns o) eqn:E0; simpl.
      * rewrite E0. apply Hc.
      * intros [= <-]. apply len_list_mul, Hn.
Qed.

Lemma session_keeps (cs : list call) :
  forall o, consistent o ->
    consistent (session cs o) /\ ncols (session cs o) = ncols o.
Proof.
  induction cs as [|c cs IH]; intros o Ho; simpl.
  - split; [exact Ho | reflexivity].
  - destruct (perform_keeps c o Ho) as (H1 & H2).
    destruct (IH _ H1) as (H4 & H5).
    split; [exact H4 | congruence].
Qed.

(** No call takes the boolean [include_headers] off the instance. *)
Lemma perform_keeps_shadow (c : call) (o : CSVToLaTeX) :
  include_headers o <> None -> include_headers (perform c o) <> None.
Proof.
  intros H.
  destruct c as [val | hs b | cols | lines | idx line | lines | fs | idx f | ]; simpl.
  - unfold call_include_headers, getattr_include_headers, bind, get.
    destruct (include_headers o) eqn:E; simpl; rewrite ?E; discriminate.
  - unfold set_headers, bind, get, modify.
    destruct (len hs =? ncols o); simpl; [discriminate | exact H].
  - destruct (Z.eq_dec (len (colspec_items cols)) (ncols o)) as [E|E].
    + rewrite (set_columns_run o cols E). exact H.
    + destruct cols as [s|l].
      * rewrite (set_columns_string_refused o s E). exact H.
      * rewrite set_columns_list. destruct (len l =? ncols o); exact H.
  - unfold set_column_lines, bind, get, modify, lift, ret, raise.
    destruct lines as [s | [|i idxs] | [|t toks]]; simpl; try exact H.
    + destruct (str_eq s "all"); [|destruct (str_eq s "none")]; exact H.
    + destruct (rbind _ _); exact H.
  - unfold set_column_line, bind, get, modify, lift.
    destruct (clines (keys o)) as [l|] eqn:E; simpl.
    + rewrite E. destruct (setitem l idx line); exact H.
    + destruct (setitem _ idx line); exact H.
  - exact H.
  - unfold set_formatters, bind, get, modify.
    destruct fs as [f|l]; simpl; [exact H|].
    destruct (len l =? ncols o); exact H.
  - unfold set_formatter, bind, get, modify, lift.
    destruct (setitem (formatters o) idx f); exact H.
  - destruct (tolatex_unchanged o "") as (_ & _ & _ & _ & Ei & _).
    rewrite Ei. unfold fill_columns. destruct (columns o); exact H.
Qed.

Lemma session_keeps_shadow (cs : list call) :
  forall o, include_headers o <> None -> include_headers (session cs o) <> None.
Proof.
  induction cs as [|c cs IH]; intros o Ho; simpl; [exact Ho|].
  apply IH, perform_keeps_shadow, Ho.
Qed.

(** The constructor sets the lengths right, for a column count that is not
    negative. *)
Lemma init_consistent rows ncols_arg header o :
  __init__ rows ncols_arg header = Ok o -> 0 <= ncols o -> consistent o.
Proof.
  unfold __init__. intros H Hn.
  destruct ncols_arg as [k|], header, rows as [|first rest]; try discriminate;
    try (destruct (len (read_headers first) =? k)); simpl in H;
    try discriminate; injection H as <-; simpl in *;
    unfold consistent; simpl; repeat split; auto using len_list_mul;
    try discriminate; intros hs [= <-]; reflexivity.
Qed.

(** X4: on an object that the constructor returned (with a column count
    that is not negative), after any sequence of calls of the setters, of
    [include_headers] and of [tolatex], each of which may have returned or
    raised, the column count is the one fixed at construction, there is one
    formatter per column, the headers, when there are any, are one per
    column, and an alignment given as a list has one token per column. *)
Theorem session_keeps_lengths rows ncols_arg header (o : CSVToLaTeX) (cs : list call) :
  __init__ rows ncols_arg header = Ok o -> 0 <= ncols o ->
  ncols (session cs o) = ncols o /\
  len (formatters (session cs o)) = ncols o /\
  (forall hs, headers (session cs o) = Some hs -> len hs = ncols o) /\
  (forall l, columns (session cs o) = Some (ColList l) -> len l = ncols o).
Proof.
  intros Hi Hn.
  destruct (session_keeps cs o (init_consistent _ _ _ _ Hi Hn))
    as ((_ & Hf & Hh & Hc) & En).
  rewrite <- En. auto.
Qed.

Lemma session_keeps_lengths_witness :
  let o := plain 2 [["1"; "2"]] in
  let cs := [SetHeaders ["a"; "b"] true; SetColumns (ColStr "l|r");
             SetFormatter 5 str; ToLatex; SetColumns (ColList ["left"; "right"])] in
  ncols (session cs o) = 2 /\
  len (formatters (session cs o)) = 2 /\
  (forall hs, headers (session cs o) = Some hs -> len hs = 2) /\
  (forall l, columns (session cs o) = Some (ColList l) -> len l = 2).
Proof.
  apply (session_keeps_lengths [["1"; "2"]] (Some 2) false); [reflexivity | simpl; lia].
Defined.

(** X5: the method [include_headers] stays out of reach: on an object that
    the constructor returned, after any sequence of calls of the setters, of
    [include_headers] itself and of [tolatex], [include_headers(val)] raises
    [TypeError] and changes nothing. *)
Theorem include_headers_never_callable rows ncols_arg header (o : CSVToLaTeX)
    (cs : list call) (val : bool) :
  __init__ rows ncols_arg header = Ok o ->
  call_include_headers val (session cs o) = (Raise TypeError, session cs o).
Proof.
  intros Hi.
  pose proof (session_keeps_shadow cs o) as Hs.
  rewrite (init_include_headers _ _ _ _ Hi) in Hs. specialize (Hs ltac:(discriminate)).
  unfold call_include_headers, getattr_include_headers, bind, get.
  destruct (include_headers (session cs o)); [reflexivity | contradiction].
Qed.

Lemma include_headers_never_callable_witness :
  let o := plain 2 [] in
  let cs := [SetHeaders ["a"; "b"] false; IncludeHeaders true; ToLatex] in
  call_include_headers false (session cs o) = (Raise TypeError, session cs o).
Proof.
  apply (include_headers_never_callable [] (Some 2) false). reflexivity.
Defined.

(** ** The column specification *)

Lemma getitem_lookup {A} (l : list A) (k : nat) (x : A) :
  l !! k = Some x -> getitem l (Z.of_nat k) = Ok x.
Proof.
  intros H. pose proof (lookup_lt_Some _ _ _ H) as Hk.
  unfold getitem, position.
  destruct (Z.leb_spec 0 (Z.of_nat k)); [|lia].
  destruct (Z.ltb_spec (Z.of_nat k) (Z.of_nat (length l))); [|lia]. simpl.
  rewrite Nat2Z.id, H. reflexivity.
Qed.

(** [getitem] raises nothing but [IndexError]. *)
Lemma getitem_raises {A} (l : list A) (i : Z) (e : exn) :
  getitem l i = Raise e -> e = IndexError.
Proof.
  unfold getitem. destruct (position (length l) i) as [k|]; [|congruence].
  destruct (l !! k); congruence.
Qed.

Lemma getitem_out_of_range {A} (l : list A) (i : Z) :
  len l <= i -> getitem l i = Raise IndexError.
Proof.
  unfold len, getitem, position. intros H.
  destruct (Z.leb_spec 0 i); [|lia].
  destruct (Z.ltb_spec i (Z.of_nat (length l))); [lia|]. simpl.
  destruct (Z.ltb_spec i 0); [lia|]. rewrite andb_false_r. reflexivity.
Qed.

Lemma compose_steps (cols lines : list string) :
  forall m k acc,
    (k + m)%nat = length cols -> (k + m < length lines)%nat ->
    fold_res
      (fun colstr i =>
         rbind (getitem cols i) (fun ci =>
         rbind (getitem lines (i + 1)) (fun li =>
         Ok (colstr +:+ (ci +:+ li)))))
      (Z.of_nat <$> seq k m) acc
    = Ok (acc +:+ columns_text (drop k cols) (drop (S k) lines)).
Proof.
  induction m as [|m IH]; intros k acc Hc Hl; simpl.
  - rewrite drop_ge by lia. simpl. rewrite str_app_nil_r. reflexivity.
  - destruct (lookup_lt_is_Some_2 cols k ltac:(lia)) as [c Ec].
    destruct (lookup_lt_is_Some_2 lines (S k) ltac:(lia)) as [s Es].
    rewrite (getitem_lookup _ _ _ Ec). simpl.
    replace (Z.of_nat k + 1) with (Z.of_nat (S k)) by lia.
    rewrite (getitem_lookup _ _ _ Es). simpl.
    rewrite (IH (S k)) by lia.
    rewrite (drop_S _ _ _ Ec), (drop_S _ _ _ Es). simpl.
    rewrite !str_app_assoc. reflexivity.
Qed.

Lemma compose_colstr_weave (n : Z) (cols lines : list string) :
  len cols = n -> n + 1 <= len lines ->
  compose_colstr n cols lines = Ok (weave cols lines).
Proof.
  unfold len. intros Hc Hl. unfold compose_colstr.
  destruct lines as [|s0 seps]; [simpl in Hl; lia|].
  change (getitem (s0 :: seps) 0) with (getitem (s0 :: seps) (Z.of_nat 0)).
  rewrite (getitem_lookup (s0 :: seps) 0 s0 eq_refl). simpl rbind.
  unfold range. rewrite (compose_steps cols (s0 :: seps) (Z.to_nat n) 0 s0).
  - reflexivity.
  - lia.
  - simpl in *. lia.
Qed.

Lemma fold_res_fails {A B} (f : B -> A -> res B) (l : list A) (x : A) :
  In x l -> (forall b, is_ok (f b x) = false) ->
  forall b, is_ok (fold_res f l b) = false.
Proof.
  induction l as [|y l IH]; intros Hin Hx b; [contradiction|]. simpl.
  destruct Hin as [->|Hin].
  - specialize (Hx b). destruct (f b x); [discriminate | reflexivity].
  - destruct (f b y); simpl; [apply IH; assumption | reflexivity].
Qed.

Lemma fold_res_raises {A B} (f : B -> A -> res B) (l : list A) (e0 : exn) :
  (forall b x e, f b x = Raise e -> e = e0) ->
  forall b e, fold_res f l b = Raise e -> e = e0.
Proof.
  intros Hf. induction l as [|y l IH]; intros b e; simpl; [discriminate|].
  destruct (f b y) eqn:E; simpl; [apply IH|].
  intros [= <-]. eapply Hf, E.
Qed.

Lemma compose_colstr_short (n : Z) (cols lines : list string) :
  0 <= n -> len lines < n + 1 ->
  compose_colstr n cols lines = Raise IndexError.
Proof.
  unfold len. intros Hn Hl. unfold compose_colstr.
  destruct lines as [|s0 seps]; [reflexivity|].
  change (getitem (s0 :: seps) 0) with (getitem (s0 :: seps) (Z.of_nat 0)).
  rewrite (getitem_lookup (s0 :: seps) 0 s0 eq_refl). simpl rbind.
  match goal with |- fold_res ?f ?l ?b = _ =>
    pose proof (fold_res_fails f l (Z.of_nat (length seps))) as Hfail;
    pose proof (fold_res_raises f l IndexError) as Hexn;
    destruct (fold_res f l b) as [r|e] eqn:E
  end.
  - exfalso. assert (is_ok (Ok r : res string) = false) as Habs; [|discriminate Habs].
    rewrite <- E. apply Hfail.
    + unfold range. apply in_map, in_seq. simpl in Hl. lia.
    + intros b. destruct (getitem cols (Z.of_nat (length seps))); [|reflexivity].
      simpl. rewrite getitem_out_of_range; [reflexivity|].
      unfold len. simpl. lia.
  - f_equal. eapply Hexn; [|exact E].
    intros b x e0. destruct (getitem cols x) eqn:E1; simpl.
    + destruct (getitem (s0 :: seps) (x + 1)) eqn:E2; simpl; [discriminate|].
      intros [= <-]. eapply getitem_raises, E2.
    + intros [= <-]. eapply getitem_raises, E1.
Qed.

(** Once the column specification is resolved the opening directive is
    written, whatever happens afterwards. *)
Lemma tolatex_opens (o : CSVToLaTeX) (f colstr : string) :
  fst (resolve_colstr (o, "")) = Ok colstr ->
  exists rest, output (tolatex (o, f)) = table_open colstr +:+ rest.
Proof.
  unfold output. rewrite tolatex_steps.
  destruct (resolve_colstr (o, "")) as [[c|e] w1]; simpl; [|discriminate].
  intros [= ->].
  destruct (appends_tolatex_body (fill_columns o, table_open colstr)) as [t Ht].
  destruct (tolatex_body (fill_columns o, table_open colstr)) as [[[]|e] w2];
    simpl in *; rewrite Ht.
  - exists (t +:+ table_close). apply str_app_assoc.
  - exists t. reflexivity.
Qed.

Lemma resolve_colstr_list (o : CSVToLaTeX) (f : string) (cols : list string) :
  columns o = Some (ColList cols) ->
  fst (resolve_colstr (o, f)) = compose_colstr (ncols o) cols (separators o).
Proof.
  intros H. unfold resolve_colstr, bind, this. simpl. rewrite H. reflexivity.
Qed.

Lemma resolve_colstr_default (o : CSVToLaTeX) (f : string) :
  columns o = None ->
  fst (resolve_colstr (o, f))
    = compose_colstr (ncols o) (list_mul "c" (ncols o)) (separators o).
Proof.
  intros H. unfold resolve_colstr, bind, this. simpl. rewrite H. reflexivity.
Qed.

(** X6: when the alignment is a list of one token per column and there are
    at least [ncols + 1] separators, the opening directive that [tolatex]
    writes carries the leftmost separator followed by each alignment token
    with the separator to its right; separators past position [ncols] are
    ignored. *)
Theorem tolatex_weaves_colspec (o : CSVToLaTeX) (f : string) (cols : list string) :
  columns o = Some (ColList cols) -> len cols = ncols o ->
  ncols o + 1 <= len (separators o) ->
  exists rest,
    output (tolatex (o, f)) = table_open (weave cols (separators o)) +:+ rest.
Proof.
  intros Hc Hl Hs. apply tolatex_opens.
  rewrite (resolve_colstr_list o "" cols Hc).
  apply compose_colstr_weave; assumption.
Qed.

Lemma tolatex_weaves_colspec_witness :
  exists rest,
    output (tolatex (with_clines ["|"; ""; "||"; "!"]
                       (with_columns (Some (ColList ["l"; "r"])) (plain 2 [])), ""))
    = table_open "|lr||" +:+ rest.
Proof.
  apply (tolatex_weaves_colspec
           (with_clines ["|"; ""; "||"; "!"]
              (with_columns (Some (ColList ["l"; "r"])) (plain 2 []))) "" ["l"; "r"]).
  - reflexivity.
  - reflexivity.
  - vm_compute. discriminate.
Defined.

Lemma columns_text_replicate (s : string) (cols : list string) :
  forall m, (length cols <= m)%nat ->
    columns_text cols (replicate m s) = flat ((fun c => c +:+ s) <$> cols).
Proof.
  induction cols as [|c cols IH]; intros m Hm; [reflexivity|].
  destruct m as [|m]; [simpl in Hm; lia|]. simpl in Hm.
  change (columns_text (c :: cols) (replicate (S m) s))
    with (c +:+ s +:+ columns_text cols (replicate m s)).
  change (flat ((fun c => c +:+ s) <$> c :: cols))
    with ((c +:+ s) +:+ flat ((fun c => c +:+ s) <$> cols)).
  rewrite IH by lia. rewrite str_app_assoc. reflexivity.
Qed.

Lemma flat_app_empty (cols : list string) :
  flat ((fun c => c +:+ "") <$> cols) = flat cols.
Proof.
  induction cols as [|c cols IH]; [reflexivity|].
  change (flat ((fun c => c +:+ "") <$> c :: cols))
    with ((c +:+ "") +:+ flat ((fun c => c +:+ "") <$> cols)).
  rewrite IH, str_app_nil_r. reflexivity.
Qed.

Lemma weave_replicate (s : string) (cols : list string) (n : Z) :
  len cols = n ->
  weave cols (list_mul s (n + 1)) = s +:+ flat ((fun c => c +:+ s) <$> cols).
Proof.
  unfold len, list_mul. intros H.
  replace (Z.to_nat (n + 1)) with (S (Z.to_nat n)) by lia. simpl.
  rewrite columns_text_replicate by lia. reflexivity.
Qed.

(** X7: with an alignment of one token per column, after
    [set_column_lines("all")] the opening directive has a bar before the
    first token and after every token, and after [set_column_lines("none")]
    it has the tokens alone. *)
Theorem tolatex_all_or_no_separators (o : CSVToLaTeX) (f : string) (cols : list string) :
  columns o = Some (ColList cols) -> len cols = ncols o ->
  (exists rest,
     output (tolatex (perform (SetColumnLines (LinesStr "all")) o, f))
     = table_open ("|" +:+ flat ((fun c => c +:+ "|") <$> cols)) +:+ rest) /\
  (exists rest,
     output (tolatex (perform (SetColumnLines (LinesStr "none")) o, f))
     = table_open (flat cols) +:+ rest).
Proof.
  intros Hc Hl.
  assert (Hn : 0 <= ncols o) by (unfold len in Hl; lia).
  split; apply tolatex_opens.
  - change (perform (SetColumnLines (LinesStr "all")) o)
      with (with_clines (list_mul "|" (ncols o + 1)) o).
    rewrite (resolve_colstr_list (with_clines (list_mul "|" (ncols o + 1)) o) "" cols Hc).
    change (separators (with_clines (list_mul "|" (ncols o + 1)) o))
      with (list_mul "|" (ncols o + 1)).
    change (ncols (with_clines (list_mul "|" (ncols o + 1)) o)) with (ncols o).
    rewrite compose_colstr_weave; [|exact Hl | rewrite len_list_mul; lia].
    rewrite (weave_replicate "|" cols (ncols o) Hl). reflexivity.
  - change (perform (SetColumnLines (LinesStr "none")) o)
      with (with_clines (list_mul "" (ncols o + 1)) o).
    rewrite (resolve_colstr_list (with_clines (list_mul "" (ncols o + 1)) o) "" cols Hc).
    change (separators (with_clines (list_mul "" (ncols o + 1)) o))
      with (list_mul "" (ncols o + 1)).
    change (ncols (with_clines (list_mul "" (ncols o + 1)) o)) with (ncols o).
    rewrite compose_colstr_weave; [|exact Hl | rewrite len_list_mul; lia].
    rewrite (weave_replicate "" cols (ncols o) Hl), flat_app_empty. reflexivity.
Qed.

Lemma tolatex_all_or_no_separators_witness :
  let o := with_columns (Some (ColList ["l"; "c"])) (plain 2 []) in
  (exists rest,
     output (tolatex (perform (SetColumnLines (LinesStr "all")) o, ""))
     = table_open "|l|c|" +:+ rest) /\
  (exists rest,
     output (tolatex (perform (SetColumnLines (LinesStr "none")) o, ""))
     = table_open "lc" +:+ rest).
Proof.
  apply (tolatex_all_or_no_separators
           (with_columns (Some (ColList ["l"; "c"])) (plain 2 [])) "" ["l"; "c"]);
    reflexivity.
Defined.

(** X8: when the alignment is not a literal string and fewer than
    [ncols + 1] separators are configured, [tolatex] raises [IndexError]
    while composing the column specification: nothing has been written to
    the file, which is left empty, and the model is as it was but for the
    default alignment. *)
Theorem tolatex_short_separators (o : CSVToLaTeX) (f : string) (lines : list string) :
  0 <= ncols o ->
  (forall s, columns o <> Some (ColStr s)) ->
  clines (keys o) = Some lines -> len lines < ncols o + 1 ->
  tolatex (o, f) = (Raise IndexError, (fill_columns o, "")).
Proof.
  intros Hn Hc Hl Hlen. rewrite tolatex_steps.
  assert (E : fst (resolve_colstr (o, "")) = Raise IndexError).
  { destruct (columns o) as [[s|cols]|] eqn:Ec.
    - exfalso. apply (Hc s). reflexivity.
    - rewrite (resolve_colstr_list o "" cols Ec). unfold separators. rewrite Hl.
      apply compose_colstr_short; assumption.
    - rewrite (resolve_colstr_default o "" Ec). unfold separators. rewrite Hl.
      apply compose_colstr_short; assumption. }
  destruct (resolve_colstr (o, "")) as [[c|e] w1]; simpl in E; [discriminate|].
  injection E as ->. reflexivity.
Qed.

Lemma tolatex_short_separators_witness :
  tolatex (with_clines ["|"; "|"] (plain 2 [["1"; "2"]]), "old")
  = (Raise IndexError, (fill_columns (with_clines ["|"; "|"] (plain 2 [["1"; "2"]])), "")).
Proof.
  apply (tolatex_short_separators (with_clines ["|"; "|"] (plain 2 [["1"; "2"]]))
           "old" ["|"; "|"]).
  - simpl. lia.
  - intros s. discriminate.
  - reflexivity.
  - vm_compute. reflexivity.
Defined.

(** ** The rows and their rules *)

Lemma existsb_none (r : Z) (l : list Z) :
  Forall (fun k => k <> r) l -> existsb (Z.eqb r) l = false.
Proof.
  induction 1 as [|k l Hk _ IH]; [reflexivity|]. simpl.
  destruct (Z.eqb_spec r k); [congruence | exact IH].
Qed.

(** One step of the cursor (lines 275-279). *)
Lemma cursor_step (all_lines : bool) (rl : list Z) (idx : nat) (rownr : Z) :
  cursor_ok all_lines rl idx rownr ->
  fst (separator_after all_lines rl idx rownr) = marked all_lines rl rownr /\
  cursor_ok all_lines rl (snd (separator_after all_lines rl idx rownr)) (rownr + 1).
Proof.
  intros [-> | (Hr & Hdone & inc & neg & Hdrop & Hsort & Hinc & Hneg)].
  { split; [reflexivity | left; reflexivity]. }
  unfold separator_after, marked. destruct all_lines; [split; [reflexivity | left; reflexivity]|].
  simpl orb.
  assert (Hsplit : existsb (Z.eqb rownr) rl
                   = existsb (Z.eqb rownr) (inc ++ neg)).
  { rewrite <- (take_drop idx rl) at 1. rewrite existsb_app, Hdrop.
    rewrite existsb_none; [reflexivity|].
    eapply Forall_impl; [exact Hdone|]. simpl. intros; lia. }
  assert (Hnegf : existsb (Z.eqb rownr) neg = false).
  { apply existsb_none. eapply Forall_impl; [exact Hneg|]. simpl. intros; lia. }
  assert (Hlook : rl !! idx = head (inc ++ neg)).
  { rewrite <- Hdrop. rewrite <- (Nat.add_0_r idx) at 1.
    rewrite <- lookup_drop. destruct (drop idx rl); reflexivity. }
  rewrite Hlook, Hsplit.
  destruct inc as [|k inc]; simpl.
  - destruct neg as [|k neg]; simpl.
    + split; [reflexivity|]. right. split; [lia|]. split.
      * eapply Forall_impl; [exact Hdone|]. simpl. intros; lia.
      * exists [], []. rewrite Hdrop. repeat split; constructor.
    + apply Forall_cons in Hneg as [Hk Hneg'].
      simpl in Hnegf. destruct (Z.eqb_spec rownr k); [lia|]. simpl in *.
      split; [symmetry; exact Hnegf|].
      right. split; [lia|]. split.
      * eapply Forall_impl; [exact Hdone|]. simpl. intros; lia.
      * exists [], (k :: neg). rewrite Hdrop. repeat split; try constructor; assumption.
  - apply Forall_cons in Hinc as [Hk Hinc'].
    apply StronglySorted_inv in Hsort as [Hsort' Hgt].
    destruct (Z.eqb_spec rownr k) as [->|Hne]; simpl.
    + assert (El : rl !! idx = Some k) by (rewrite Hlook; reflexivity).
      split; [reflexivity|]. right. split; [lia|]. split.
      * rewrite (take_S_r _ _ _ El). apply Forall_app. split.
        -- eapply Forall_impl; [exact Hdone|]. simpl. intros; lia.
        -- constructor; [lia | constructor].
      * exists inc, neg. split; [|split; [exact Hsort'|split; [|exact Hneg]]].
        -- rewrite (drop_S _ _ _ El) in Hdrop. simpl in Hdrop. congruence.
        -- eapply Forall_impl; [exact Hgt|]. simpl. intros; lia.
    + split.
      * symmetry. rewrite existsb_app, Hnegf, orb_false_r. apply existsb_none.
        eapply Forall_impl; [exact Hgt|]. simpl. intros; lia.
      * right. split; [lia|]. split.
        -- eapply Forall_impl; [exact Hdone|]. simpl. intros; lia.
        -- exists (k :: inc), neg. rewrite Hdrop.
           split; [reflexivity|]. split; [constructor; assumption|].
           split; [|exact Hneg]. constructor; [lia|].
           eapply Forall_impl; [exact Hgt|]. simpl. intros; lia.
Qed.

Lemma format_row_ext (o o' : CSVToLaTeX) (r : row) :
  ncols o' = ncols o -> formatters o' = formatters o ->
  format_row o' r = format_row o r.
Proof. intros Hn Hf. unfold format_row. rewrite Hn, Hf. reflexivity. Qed.

Lemma map_res_ext {A B} (f g : A -> res B) (l : list A) :
  (forall x, f x = g x) -> map_res f l = map_res g l.
Proof.
  intros H. induction l as [|x l IH]; [reflexivity|]. simpl. rewrite H, IH. reflexivity.
Qed.

(** The loop over the first rows of the source, when they can all be
    formatted: their lines are written, with a rule after the marked ones,
    and the loop goes on with the rest. *)
Lemma rows_loop_run (all_lines : bool) (rl : list Z) (rest : list row) (pre : list row) :
  forall lines idx rownr o f,
    cursor_ok all_lines rl idx rownr ->
    map_res (format_row o) pre = Ok lines ->
    exists idx',
      cursor_ok all_lines rl idx' (rownr + len pre) /\
      rows_loop all_lines rl (pre ++ rest) idx rownr (o, f) =
      rows_loop all_lines rl rest idx' (rownr + len pre)
        (match pre with [] => o | _ :: _ => with_reader rest o end,
         f +:+ rows_text (marked all_lines rl) rownr lines).
Proof.
  induction pre as [|r pre IH]; intros lines idx rownr o f Hcur Hfmt.
  - injection Hfmt as <-. exists idx. unfold len. simpl.
    rewrite Z.add_0_r, str_app_nil_r. split; [exact Hcur | reflexivity].
  - simpl in Hfmt.
    destruct (format_row o r) as [l|e] eqn:El; [|discriminate]. simpl in Hfmt.
    destruct (map_res (format_row o) pre) as [ls|e] eqn:Els; [|discriminate].
    injection Hfmt as <-.
    destruct (cursor_step all_lines rl idx rownr Hcur) as [Hm Hcur'].
    destruct (IH ls (snd (separator_after all_lines rl idx rownr)) (rownr + 1)
                (with_reader (pre ++ rest) o)
                (f +:+ (l +:+ endline) +:+ (if marked all_lines rl rownr then hline else ""))
                Hcur' Els) as (idx' & Hcur'' & Hrun).
    exists idx'. split.
    { replace (rownr + len (r :: pre)) with (rownr + 1 + len pre); [exact Hcur''|].
      unfold len. simpl length. lia. }
    replace (rownr + len (r :: pre)) with (rownr + 1 + len pre)
      by (unfold len; simpl length; lia).
    change ((r :: pre) ++ rest) with (r :: (pre ++ rest)).
    cbn [rows_loop]. unfold bind at 1. cbn [assign on_fst modify fst snd].
    unfold bind at 1. cbn [this fst snd]. unfold bind at 1, lift.
    change (format_row (with_reader (pre ++ rest) o) r) with (format_row o r).
    rewrite El. unfold bind at 1. cbn [write modify fst snd].
    destruct (separator_after all_lines rl idx rownr) as [sep idx1]. simpl in Hm, Hrun.
    subst sep.
    assert (Etext :
      (f +:+ (l +:+ endline) +:+ (if marked all_lines rl rownr then hline else ""))
        +:+ rows_text (marked all_lines rl) (rownr + 1) ls
      = f +:+ rows_text (marked all_lines rl) rownr (l :: ls)).
    { cbn [rows_text]. rewrite !str_app_assoc. reflexivity. }
    rewrite Etext in Hrun.
    assert (Est : match pre with
                  | [] => with_reader (pre ++ rest) o
                  | _ :: _ => with_reader rest (with_reader (pre ++ rest) o)
                  end = with_reader rest o) by (destruct pre; reflexivity).
    rewrite Est in Hrun. rewrite <- Hrun.
    unfold bind at 1.
    destruct (marked all_lines rl rownr); cbn [write modify ret fst snd].
    + rewrite !str_app_assoc. reflexivity.
    + rewrite !str_app_assoc. reflexivity.
Qed.

Lemma ascending_cursor (all_lines : bool) (rl : list Z) :
  ascending rl -> cursor_ok all_lines rl 0 0.
Proof.
  intros (inc & neg & -> & Hs & Hi & Hn). right. split; [lia|]. split; [constructor|].
  exists inc, neg. repeat split; assumption.
Qed.

Lemma getitem_minus_1 {A} (l : list A) :
  getitem l (-1) = match last l with Some x => Ok x | None => Raise IndexError end.
Proof.
  destruct l as [|x l]; [reflexivity|].
  unfold getitem. change (length (x :: l)) with (S (length l)).
  rewrite position_last, last_lookup. simpl.
  destruct ((x :: l) !! length l); reflexivity.
Qed.

(** The header lines, when the headers that are to be rendered are there. *)
Lemma write_headers_run (o : CSVToLaTeX) (f : string) :
  (truthy (getattr_include_headers o) = true -> headers o <> None) ->
  write_headers (o, f) = (Ok tt, (restyle o, f +:+ header_text o)).
Proof.
  intros H. unfold write_headers, restyle, header_text, restyles, restyle, restyles.
  unfold bind, this, write, assign, on_fst, modify, raise, ret. simpl.
  destruct (truthy (getattr_include_headers o)); simpl.
  - specialize (H eq_refl). destruct (headers o) as [hs|] eqn:Eh; [|congruence].
    destruct (bold (keys o)) as [[|]|]; simpl; rewrite ?Eh; simpl;
      rewrite !str_app_assoc; reflexivity.
  - rewrite str_app_nil_r. reflexivity.
Qed.

Lemma restyle_fields (o : CSVToLaTeX) :
  reader (restyle o) = reader o /\ ncols (restyle o) = ncols o /\
  formatters (restyle o) = formatters o /\ keys (restyle o) = keys o.
Proof.
  unfold restyle. destruct (restyles o); [|repeat split].
  destruct (headers o); repeat split.
Qed.

Lemma filled_fields (o : CSVToLaTeX) :
  reader (fill_columns o) = reader o /\ ncols (fill_columns o) = ncols o /\
  formatters (fill_columns o) = formatters o /\
  headers (fill_columns o) = headers o /\
  include_headers (fill_columns o) = include_headers o.
Proof. unfold fill_columns. destruct (columns o); repeat split. Qed.

Lemma header_text_filled (o : CSVToLaTeX) : header_text (fill_columns o) = header_text o.
Proof.
  unfold fill_columns. destruct (columns o); [reflexivity|].
  unfold header_text, restyle, restyles, getattr_include_headers. simpl.
  destruct (include_headers o) as [[|]|]; simpl; try reflexivity;
    destruct (bold (keys o)) as [[|]|]; simpl; try reflexivity;
    destruct (headers o); reflexivity.
Qed.

(** [tolatex_body] up to the end of the first rows of the source, when
    they can all be formatted. *)
Lemma tolatex_body_run (o : CSVToLaTeX) (f : string) (all_lines : bool) (rl : list Z)
    (pre rest : list row) (lines : list string) :
  (truthy (getattr_include_headers o) = true -> headers o <> None) ->
  row_policy (keys o) = (all_lines, rl) ->
  cursor_ok all_lines rl 0 0 ->
  reader o = pre ++ rest ->
  map_res (format_row o) pre = Ok lines ->
  exists idx,
    tolatex_body (o, f) =
      bind (rows_loop all_lines rl rest idx (len pre)) (fun _ => sentinel_step rl)
        (match pre with [] => restyle o | _ :: _ => with_reader rest (restyle o) end,
         (f +:+ header_text o) +:+ rows_text (marked all_lines rl) 0 lines).
Proof.
  intros Hh Hp Hcur Hrd Hfmt.
  destruct (restyle_fields o) as (Er & En & Ef & _).
  assert (Hfmt' : map_res (format_row (restyle o)) pre = Ok lines).
  { rewrite <- Hfmt. apply map_res_ext. intros r. apply format_row_ext; assumption. }
  destruct (rows_loop_run all_lines rl rest pre lines 0 0 (restyle o)
              (f +:+ header_text o) Hcur Hfmt') as (idx & _ & Hrun).
  exists idx. unfold tolatex_body. unfold bind at 1. cbn [this fst snd]. rewrite Hp.
  unfold bind at 1. rewrite (write_headers_run o f Hh).
  unfold bind at 1. cbn [this fst snd]. rewrite Er, Hrd.
  unfold bind at 1. rewrite Hrun. reflexivity.
Qed.

(** [tolatex] up to the end of the first rows of the source, when they can
    all be formatted. *)
Lemma tolatex_run (o : CSVToLaTeX) (f colstr : string) (all_lines : bool) (rl : list Z)
    (pre rest : list row) (lines : list string) :
  fst (resolve_colstr (o, "")) = Ok colstr ->
  (truthy (getattr_include_headers o) = true -> headers o <> None) ->
  row_policy (keys o) = (all_lines, rl) ->
  cursor_ok all_lines rl 0 0 ->
  reader o = pre ++ rest ->
  map_res (format_row o) pre = Ok lines ->
  exists idx,
    tolatex (o, f) =
      match
        bind (rows_loop all_lines rl rest idx (len pre)) (fun _ => sentinel_step rl)
          (match pre with
           | [] => restyle (fill_columns o)
           | _ :: _ => with_reader rest (restyle (fill_columns o))
           end,
           (table_open colstr +:+ header_text o)
           +:+ rows_text (marked all_lines rl) 0 lines)
      with
      | (Ok _, w) => (Ok tt, (fst w, snd w +:+ table_close))
      | (Raise e, w) => (Raise e, w)
      end.
Proof.
  intros Hc Hh Hp Hcur Hrd Hfmt.
  destruct (filled_fields o) as (Er & En & Ef & Eh & Ei).
  destruct (tolatex_body_run (fill_columns o) (table_open colstr) all_lines rl
              pre rest lines) as (idx & Hrun).
  - unfold getattr_include_headers. rewrite Ei, Eh. exact Hh.
  - rewrite keys_filled. exact Hp.
  - exact Hcur.
  - rewrite Er. exact Hrd.
  - rewrite <- Hfmt. apply map_res_ext. intros r. apply format_row_ext; assumption.
  - exists idx. rewrite tolatex_steps.
    destruct (resolve_colstr (o, "")) as [[c|e] w1]; simpl in Hc; [|discriminate].
    injection Hc as ->. rewrite Hrun, header_text_filled. reflexivity.
Qed.

(** The full text, shared by the properties below: the rows can all be
    formatted and the row indices are in order. *)
Lemma tolatex_writes (o : CSVToLaTeX) (f colstr : string) (rl : list Z)
    (lines : list string) :
  fst (resolve_colstr (o, "")) = Ok colstr ->
  (truthy (getattr_include_headers o) = true -> headers o <> None) ->
  row_policy (keys o) = (false, rl) -> ascending rl -> rl <> [] ->
  map_res (format_row o) (reader o) = Ok lines ->
  outcome (tolatex (o, f)) = Ok tt /\
  output (tolatex (o, f)) =
    table_open colstr +:+ header_text o +:+ rows_text (marked false rl) 0 lines
    +:+ closing_rule rl +:+ table_close.
Proof.
  intros Hc Hh Hp Hasc Hne Hfmt.
  destruct (tolatex_run o f colstr false rl (reader o) [] lines Hc Hh Hp
              (ascending_cursor false rl Hasc) (eq_sym (app_nil_r _)) Hfmt) as (idx & Hrun).
  rewrite Hrun. unfold outcome, output, closing_rule.
  cbn [rows_loop]. unfold bind, ret, sentinel_step, bind, lift.
  rewrite getitem_minus_1.
  destruct (last rl) as [k|] eqn:El; [|apply last_None in El; contradiction].
  destruct (k =? -1); cbn [write modify ret fst snd]; split; try reflexivity.
  - rewrite !str_app_assoc. reflexivity.
  - rewrite !str_app_assoc. reflexivity.
Qed.

(** X9: on a model whose column specification resolves, whose headers are
    there when they are to be rendered and whose row indices are in order
    (increasing, with a possible [-1] at the end), [tolatex] returns when
    every row can be formatted, and the file then holds the opening
    directive, the header lines, each row closed by its terminator with a
    rule after exactly the rows whose index is in the list, one more rule
    when the list ends with [-1], and the closing directive. *)
Theorem tolatex_text (o : CSVToLaTeX) (f colstr : string) (rl : list Z)
    (lines : list string) :
  fst (resolve_colstr (o, "")) = Ok colstr ->
  (truthy (getattr_include_headers o) = true -> headers o <> None) ->
  row_policy (keys o) = (false, rl) -> ascending rl -> rl <> [] ->
  map_res (format_row o) (reader o) = Ok lines ->
  outcome (tolatex (o, f)) = Ok tt /\
  output (tolatex (o, f)) =
    table_open colstr +:+ header_text o +:+ rows_text (marked false rl) 0 lines
    +:+ closing_rule rl +:+ table_close.
Proof. apply tolatex_writes. Qed.

Lemma tolatex_text_witness :
  let o := with_rlines (RowList [0; -1])
             (with_bold true (with_include_headers (Some true)
                (with_headers (Some ["A"; "B"]) (plain 2 [["1"; "2"]; ["3"; "4"]])))) in
  outcome (tolatex (o, "")) = Ok tt /\
  output (tolatex (o, "")) =
    text ["\begin{tabular}{cc}"; "\hline"; "\textbf{A} & \textbf{B}\\"; "\hline";
          "1 & 2\\"; "\hline"; "3 & 4\\"; "\hline"] +:+ "\end{tabular}".
Proof.
  apply (tolatex_text
           (with_rlines (RowList [0; -1])
              (with_bold true (with_include_headers (Some true)
                 (with_headers (Some ["A"; "B"]) (plain 2 [["1"; "2"]; ["3"; "4"]])))))
           "" "cc" [0; -1] ["1 & 2"; "3 & 4"]).
  - reflexivity.
  - discriminate.
  - reflexivity.
  - exists [0], [-1]. repeat split.
    + constructor; constructor.
    + constructor; [lia | constructor].
    + constructor; [lia | constructor].
  - discriminate.
  - reflexivity.
Defined.

Lemma rows_text_all (mark : Z -> bool) (lines : list string) :
  (forall k, mark k = true) ->
  forall rownr,
    rows_text mark rownr lines = flat ((fun l => (l +:+ endline) +:+ hline) <$> lines).
Proof.
  intros Hm. induction lines as [|l ls IH]; intros rownr; [reflexivity|].
  cbn [rows_text]. rewrite Hm, IH.
  change (flat ((fun l => (l +:+ endline) +:+ hline) <$> l :: ls))
    with (((l +:+ endline) +:+ hline)
          +:+ flat ((fun l => (l +:+ endline) +:+ hline) <$> ls)).
  rewrite !str_app_assoc. reflexivity.
Qed.

Lemma rows_text_none (mark : Z -> bool) (lines : list string) :
  forall rownr,
    (forall k, rownr <= k < rownr + len lines -> mark k = false) ->
    rows_text mark rownr lines = flat ((fun l => l +:+ endline) <$> lines).
Proof.
  induction lines as [|l ls IH]; intros rownr Hm; [reflexivity|].
  cbn [rows_text]. rewrite Hm by (unfold len; simpl length; lia).
  rewrite IH.
  - reflexivity.
  - intros k Hk. apply Hm. unfold len in *. simpl length. lia.
Qed.

Lemma map_res_length {A B} (f : A -> res B) (l : list A) :
  forall l', map_res f l = Ok l' -> length l' = length l.
Proof.
  induction l as [|x l IH]; intros l' H; simpl in H.
  - injection H as <-. reflexivity.
  - destruct (f x); [|discriminate]. simpl in H.
    destruct (map_res f l) as [ys|]; [|discriminate]. injection H as <-.
    simpl. rewrite (IH ys eq_refl). reflexivity.
Qed.

(** X10: with the row separators set to ["all"], on a model whose column
    specification resolves and whose rows can all be formatted, [tolatex]
    writes the opening directive, the header lines and every row followed
    by a rule, and then raises [IndexError]: the closing directive is
    missing from the file. *)
Theorem tolatex_all_text (o : CSVToLaTeX) (f colstr : string) (lines : list string) :
  rlines (keys o) = Some (RowStr "all") ->
  fst (resolve_colstr (o, "")) = Ok colstr ->
  (truthy (getattr_include_headers o) = true -> headers o <> None) ->
  map_res (format_row o) (reader o) = Ok lines ->
  outcome (tolatex (o, f)) = Raise IndexError /\
  output (tolatex (o, f)) =
    table_open colstr +:+ header_text o
    +:+ flat ((fun l => (l +:+ endline) +:+ hline) <$> lines).
Proof.
  intros Hall Hc Hh Hfmt.
  destruct (tolatex_run o f colstr true [] (reader o) [] lines Hc Hh
              (policy_all _ Hall) (or_introl eq_refl) (eq_sym (app_nil_r _)) Hfmt)
    as (idx & Hrun).
  rewrite Hrun. unfold outcome, output. cbn.
  split; [reflexivity|].
  rewrite (rows_text_all (marked true []) lines (fun _ => eq_refl)).
  apply str_app_assoc.
Qed.

Lemma tolatex_all_text_witness :
  let o := with_rlines (RowStr "all") (plain 2 [["1"; "2"]; ["3"; "4"]]) in
  outcome (tolatex (o, "")) = Raise IndexError /\
  output (tolatex (o, "")) =
    text ["\begin{tabular}{cc}"; "1 & 2\\"; "\hline"; "3 & 4\\"; "\hline"].
Proof.
  apply (tolatex_all_text
           (with_rlines (RowStr "all") (plain 2 [["1"; "2"]; ["3"; "4"]]))
           "" "cc" ["1 & 2"; "3 & 4"]); try reflexivity.
  discriminate.
Defined.

(** X11: when a row cannot be formatted (a formatter raises, or the row has
    too few cells), [tolatex] raises what the formatting raised; the rows
    before it have been written, that row and the ones after it have not,
    nor has the closing directive, and the reader is left after the failing
    row. *)
Theorem tolatex_formatter_failure (o : CSVToLaTeX) (f colstr : string)
    (all_lines : bool) (rl : list Z) (pre post : list row) (r : row)
    (lines : list string) (e : exn) :
  fst (resolve_colstr (o, "")) = Ok colstr ->
  (truthy (getattr_include_headers o) = true -> headers o <> None) ->
  row_policy (keys o) = (all_lines, rl) -> all_lines = true \/ ascending rl ->
  reader o = pre ++ r :: post ->
  map_res (format_row o) pre = Ok lines ->
  format_row o r = Raise e ->
  tolatex (o, f) =
    (Raise e,
     (with_reader post (restyle (fill_columns o)),
      table_open colstr +:+ header_text o +:+ rows_text (marked all_lines rl) 0 lines)).
Proof.
  intros Hc Hh Hp Hord Hrd Hfmt Hr.
  assert (Hcur : cursor_ok all_lines rl 0 0).
  { destruct Hord as [->|Ha]; [left; reflexivity | apply ascending_cursor, Ha]. }
  destruct (tolatex_run o f colstr all_lines rl pre (r :: post) lines Hc Hh Hp Hcur
              Hrd Hfmt) as (idx & Hrun).
  rewrite Hrun. cbn [rows_loop]. unfold bind at 1. unfold bind at 1.
  cbn [assign on_fst modify fst snd]. unfold bind at 1. cbn [this fst snd].
  unfold bind at 1, lift.
  destruct (filled_fields o) as (_ & En & Ef & _ & _).
  destruct (restyle_fields (fill_columns o)) as (_ & En' & Ef' & _).
  match goal with |- context [format_row ?x r] =>
    assert (E : format_row x r = Raise e)
  end.
  { rewrite <- Hr. apply format_row_ext.
    - destruct pre; simpl; congruence.
    - destruct pre; simpl; congruence. }
  rewrite E. destruct pre; cbn; rewrite !str_app_assoc; reflexivity.
Qed.

Lemma tolatex_formatter_failure_witness :
  let o := plain 2 [["1"; "2"]; ["3"]; ["5"; "6"]] in
  tolatex (o, "") =
    (Raise IndexError,
     (with_reader [["5"; "6"]] (restyle (fill_columns o)),
      table_open "cc" +:+ header_text o
      +:+ rows_text (marked false [10000000000]) 0 ["1 & 2"])).
Proof.
  apply (tolatex_formatter_failure (plain 2 [["1"; "2"]; ["3"]; ["5"; "6"]]) "" "cc"
           false [10000000000] [["1"; "2"]] [["5"; "6"]] ["3"] ["1 & 2"] IndexError);
    try reflexivity.
  - discriminate.
  - right. exists [10000000000], []. repeat split.
    + constructor; constructor.
    + constructor; [lia | constructor].
    + constructor.
Defined.

(** X12: on a source that yields no row, [tolatex] still writes the opening
    directive, the header lines, the rule asked for by a final [-1] and the
    closing directive, whatever the order of the row indices, as long as
    there is at least one. *)
Theorem tolatex_empty_source (o : CSVToLaTeX) (f colstr : string)
    (all_lines : bool) (rl : list Z) :
  reader o = [] ->
  fst (resolve_colstr (o, "")) = Ok colstr ->
  (truthy (getattr_include_headers o) = true -> headers o <> None) ->
  row_policy (keys o) = (all_lines, rl) -> rl <> [] ->
  outcome (tolatex (o, f)) = Ok tt /\
  output (tolatex (o, f)) =
    table_open colstr +:+ header_text o +:+ closing_rule rl +:+ table_close.
Proof.
  intros Hrd Hc Hh Hp Hne.
  destruct (filled_fields o) as (Er & _ & _ & Eh & Ei).
  destruct (restyle_fields (fill_columns o)) as (Er' & _).
  assert (E : tolatex_body (fill_columns o, table_open colstr) =
              (Ok tt, (restyle (fill_columns o),
                       (table_open colstr +:+ header_text o) +:+ closing_rule rl))).
  { unfold tolatex_body. unfold bind at 1. cbn [this fst snd]. rewrite keys_filled, Hp.
    unfold bind at 1. rewrite write_headers_run
      by (unfold getattr_include_headers; rewrite Ei, Eh; exact Hh).
    unfold bind at 1. cbn [this fst snd]. rewrite Er', Er, Hrd.
    cbn [rows_loop]. unfold bind at 1, ret. unfold bind, lift.
    rewrite getitem_minus_1. unfold closing_rule.
    destruct (last rl) as [k|] eqn:El; [|apply last_None in El; contradiction].
    rewrite header_text_filled.
    destruct (k =? -1); cbn [write modify ret fst snd];
      rewrite ?str_app_nil_r; reflexivity. }
  unfold outcome, output. rewrite tolatex_steps.
  destruct (resolve_colstr (o, "")) as [[c|e] w1]; simpl in Hc; [|discriminate].
  injection Hc as ->. rewrite E. cbn [fst snd].
  split; [reflexivity|]. rewrite !str_app_assoc. reflexivity.
Qed.

Lemma tolatex_empty_source_witness :
  let o := with_rlines (RowList [3; 1; -1])
             (with_include_headers (Some true) (with_headers (Some ["A"; "B"]) (plain 2 []))) in
  outcome (tolatex (o, "")) = Ok tt /\
  output (tolatex (o, "")) =
    text ["\begin{tabular}{cc}"; "\hline"; "A & B\\"; "\hline"; "\hline"]
    +:+ "\end{tabular}".
Proof.
  apply (tolatex_empty_source
           (with_rlines (RowList [3; 1; -1])
              (with_include_headers (Some true)
                 (with_headers (Some ["A"; "B"]) (plain 2 []))))
           "" "cc" false [3; 1; -1]); try reflexivity; discriminate.
Defined.

Lemma ascending_single (k : Z) : 0 <= k -> ascending [k].
Proof.
  intros H. exists [k], []. repeat split.
  - constructor; constructor.
  - constructor; [exact H | constructor].
  - constructor.
Qed.

Lemma marked_single (S k : Z) : k < S -> marked false [S] k = false.
Proof. intros H. unfold marked. simpl. destruct (Z.eqb_spec k S); [lia | reflexivity]. Qed.

(** X13: with the row separators never set, or set to ["none"], no rule is
    written among the rows as long as the source yields at most
    10000000000, respectively 100000000 rows (the row index that the code
    uses as a placeholder): the file holds the opening directive, the
    header lines, the rows and the closing directive. *)
Theorem tolatex_no_rules (o : CSVToLaTeX) (f colstr : string) (lines : list string) :
  (rlines (keys o) = None /\ len (reader o) <= 10000000000) \/
  (rlines (keys o) = Some (RowStr "none") /\ len (reader o) <= 100000000) ->
  fst (resolve_colstr (o, "")) = Ok colstr ->
  (truthy (getattr_include_headers o) = true -> headers o <> None) ->
  map_res (format_row o) (reader o) = Ok lines ->
  outcome (tolatex (o, f)) = Ok tt /\
  output (tolatex (o, f)) =
    table_open colstr +:+ header_text o
    +:+ flat ((fun l => l +:+ endline) <$> lines) +:+ table_close.
Proof.
  intros Hpol Hc Hh Hfmt.
  pose proof (map_res_length _ _ _ Hfmt) as Hlen.
  assert (Hgen : forall S, 0 <= S -> S <> -1 -> len (reader o) <= S ->
            row_policy (keys o) = (false, [S]) ->
            outcome (tolatex (o, f)) = Ok tt /\
            output (tolatex (o, f)) =
              table_open colstr +:+ header_text o
              +:+ flat ((fun l => l +:+ endline) <$> lines) +:+ table_close).
  { intros S HS HS1 Hrows Hp.
    destruct (tolatex_writes o f colstr [S] lines Hc Hh Hp (ascending_single S HS)
                ltac:(discriminate) Hfmt) as [Hok Hout].
    split; [exact Hok|]. rewrite Hout.
    rewrite (rows_text_none (marked false [S]) lines 0).
    - unfold closing_rule. simpl. destruct (Z.eqb_spec S (-1)); [contradiction|].
      reflexivity.
    - intros k Hk. apply marked_single. unfold len in *. lia. }
  destruct Hpol as [[Hr Hrows] | [Hr Hrows]].
  - apply (Hgen 10000000000); try lia. unfold row_policy. rewrite Hr. reflexivity.
  - apply (Hgen 100000000); try lia. unfold row_policy. rewrite Hr. reflexivity.
Qed.

Lemma tolatex_no_rules_witness :
  let o := with_rlines (RowStr "none") (plain 2 [["1"; "2"]; ["3"; "4"]]) in
  outcome (tolatex (o, "")) = Ok tt /\
  output (tolatex (o, "")) =
    text ["\begin{tabular}{cc}"; "1 & 2\\"; "3 & 4\\"] +:+ "\end{tabular}".
Proof.
  apply (tolatex_no_rules
           (with_rlines (RowStr "none") (plain 2 [["1"; "2"]; ["3"; "4"]]))
           "" "cc" ["1 & 2"; "3 & 4"]).
  - right. split; [reflexivity | vm_compute; discriminate].
  - reflexivity.
  - discriminate.
  - reflexivity.
Defined.

(** ** The cells of a row *)

Lemma format_cells (fs : list formatter) (r : row) :
  forall m k,
    (k + m)%nat = length fs -> (k + m <= length r)%nat ->
    map_res
      (fun i => rbind (getitem fs i) (fun f => rbind (getitem r i) (fun cell => f cell)))
      (Z.of_nat <$> seq k m)
    = map_res (fun p => fst p (snd p)) (zip (drop k fs) (drop k r)).
Proof.
  induction m as [|m IH]; intros k Hf Hr.
  - rewrite (drop_ge fs) by lia. reflexivity.
  - destruct (lookup_lt_is_Some_2 fs k ltac:(lia)) as [fk Ef].
    destruct (lookup_lt_is_Some_2 r k ltac:(lia)) as [c Ec].
    change (Z.of_nat <$> seq k (S m)) with (Z.of_nat k :: (Z.of_nat <$> seq (S k) m)).
    cbn [map_res].
    rewrite (getitem_lookup _ _ _ Ef), (getitem_lookup _ _ _ Ec).
    rewrite (IH (S k)) by lia.
    rewrite (drop_S _ _ _ Ef), (drop_S _ _ _ Ec). reflexivity.
Qed.

Lemma map_res_fails {A B} (f : A -> res B) (l : list A) (x : A) :
  In x l -> is_ok (f x) = false -> is_ok (map_res f l) = false.
Proof.
  induction l as [|y l IH]; intros Hin Hx; [contradiction|]. simpl.
  destruct Hin as [->|Hin].
  - destruct (f x); [discriminate | reflexivity].
  - destruct (f y); [|reflexivity]. simpl.
    specialize (IH Hin Hx). destruct (map_res f l); [discriminate | reflexivity].
Qed.

(** X14: with one formatter per column, a row that has a cell for each
    column is formatted cell by cell, each cell by the formatter of its
    column, from left to right up to the first formatter that raises, and
    the cells past the last column are left out; a row with fewer cells than
    there are columns is never formatted: [format_row] raises. *)
Theorem format_row_cells (o : CSVToLaTeX) (r : row) :
  len (formatters o) = ncols o ->
  (ncols o <= len r ->
     format_row o r =
       rbind (map_res (fun p => fst p (snd p)) (zip (formatters o) r))
         (fun cells => Ok (join " & " cells))) /\
  (len r < ncols o -> is_ok (format_row o r) = false).
Proof.
  unfold len. intros Hf. split; intros Hr; unfold format_row.
  - unfold range.
    rewrite (format_cells (formatters o) r (Z.to_nat (ncols o)) 0) by lia.
    reflexivity.
  - match goal with |- is_ok (rbind (map_res ?g ?l) _) = false =>
      pose proof (map_res_fails g l (Z.of_nat (length r))) as Hfail;
      destruct (map_res g l) eqn:E; [|reflexivity]
    end.
    exfalso. assert (is_ok (Ok a : res (list string)) = false) as Habs;
      [|discriminate Habs].
    apply Hfail.
    + unfold range. apply in_map, in_seq. lia.
    + destruct (getitem (formatters o) (Z.of_nat (length r))); [|reflexivity]. simpl.
      rewrite getitem_out_of_range; [reflexivity | unfold len; lia].
Qed.

Lemma format_row_cells_witness :
  let up : formatter := fun s => Ok (s +:+ "!") in
  let o := with_formatters [str; up] (plain 2 []) in
  format_row o ["a"; "b"; "c"] = Ok "a & b!" /\
  is_ok (format_row o ["a"]) = false.
Proof.
  split.
  - apply (proj1 (format_row_cells
                    (with_formatters [str; fun s => Ok (s +:+ "!")] (plain 2 []))
                    ["a"; "b"; "c"] eq_refl)).
    vm_compute. discriminate.
  - apply (proj2 (format_row_cells
                    (with_formatters [str; fun s => Ok (s +:+ "!")] (plain 2 []))
                    ["a"] eq_refl)).
    vm_compute. reflexivity.
Defined.

Lemma zip_default (r : row) :
  forall n, (n <= length r)%nat ->
    map_res (fun p : formatter * string => fst p (snd p)) (zip (replicate n str) r)
    = Ok (take n r).
Proof.
  induction r as [|c r IH]; intros n Hn.
  - destruct n; [reflexivity | simpl in Hn; lia].
  - destruct n as [|n]; [reflexivity|]. simpl in *. rewrite IH by lia. reflexivity.
Qed.

Lemma format_row_default (o : CSVToLaTeX) (r : row) :
  0 <= ncols o -> formatters o = list_mul str (ncols o) -> ncols o <= len r ->
  format_row o r = Ok (join " & " (take (Z.to_nat (ncols o)) r)).
Proof.
  unfold len. intros Hn Hf Hr. unfold format_row, range. rewrite Hf.
  rewrite (format_cells (list_mul str (ncols o)) r (Z.to_nat (ncols o)) 0).
  - rewrite !drop_0. unfold list_mul. rewrite zip_default by lia. reflexivity.
  - unfold list_mul. rewrite length_replicate. reflexivity.
  - lia.
Qed.

Lemma row_lines_default (o : CSVToLaTeX) (rows : list row) :
  0 <= ncols o -> formatters o = list_mul str (ncols o) ->
  Forall (fun r => ncols o <= len r) rows ->
  map_res (format_row o) rows
    = Ok ((fun r => join " & " (take (Z.to_nat (ncols o)) r)) <$> rows).
Proof.
  intros Hn Hf. induction 1 as [|r rows Hr _ IH]; [reflexivity|].
  simpl. rewrite (format_row_default o r Hn Hf Hr). simpl. rewrite IH. reflexivity.
Qed.

Lemma flat_fmap_fmap {A} (g : A -> string) (h : string -> string) (l : list A) :
  flat (h <$> (g <$> l)) = flat ((fun x => h (g x)) <$> l).
Proof. rewrite <- list_fmap_compose. reflexivity. Qed.

(** X15: with nothing configured after construction with [ncols = n], on a
    source of at most 10000000000 rows that each have at least [n] cells,
    [tolatex] returns and the file holds the opening directive with one [c]
    per column, one line per row made of its first [n] cells joined by
    [" & "] and closed by the row terminator, and the closing directive. *)
Theorem tolatex_default_text (n : Z) (rows : list row) (f : string) :
  0 <= n -> Forall (fun r => n <= len r) rows -> len rows <= 10000000000 ->
  outcome (tolatex (plain n rows, f)) = Ok tt /\
  output (tolatex (plain n rows, f)) =
    table_open (flat (list_mul "c" n))
    +:+ flat ((fun r => join " & " (take (Z.to_nat n) r) +:+ endline) <$> rows)
    +:+ table_close.
Proof.
  intros Hn Hrows Hlen.
  assert (Hc : fst (resolve_colstr (plain n rows, "")) = Ok (flat (list_mul "c" n))).
  { rewrite (resolve_colstr_default (plain n rows) "" eq_refl). simpl.
    rewrite compose_colstr_weave.
    - unfold separators. simpl.
      rewrite (weave_replicate "" (list_mul "c" n) n (len_list_mul "c" n Hn)).
      rewrite flat_app_empty. reflexivity.
    - apply len_list_mul, Hn.
    - unfold separators. simpl. rewrite len_list_mul; lia. }
  assert (Ha : ascending [10000000000]) by (apply ascending_single; lia).
  assert (Hne : [10000000000] <> []) by discriminate.
  assert (Hh : truthy (getattr_include_headers (plain n rows)) = true ->
               headers (plain n rows) <> None) by discriminate.
  destruct (tolatex_writes (plain n rows) f _ [10000000000] _ Hc Hh eq_refl Ha Hne
              (row_lines_default (plain n rows) rows Hn eq_refl Hrows))
    as [Hok Hout].
  split; [exact Hok|]. rewrite Hout.
  rewrite (rows_text_none (marked false [10000000000]) _ 0).
  - rewrite flat_fmap_fmap. reflexivity.
  - intros k Hk. apply marked_single. unfold len in *.
    rewrite length_fmap in Hk. unfold row in *. lia.
Qed.

Lemma tolatex_default_text_witness :
  outcome (tolatex (plain 2 [["1"; "2"; "x"]; ["3"; "4"]], "")) = Ok tt /\
  output (tolatex (plain 2 [["1"; "2"; "x"]; ["3"; "4"]], "")) =
    text ["\begin{tabular}{cc}"; "1 & 2\\"; "3 & 4\\"] +:+ "\end{tabular}".
Proof.
  apply (tolatex_default_text 2 [["1"; "2"; "x"]; ["3"; "4"]] "").
  - lia.
  - repeat constructor; vm_compute; discriminate.
  - vm_compute. discriminate.
Defined.

(** ** What [tolatex] leaves behind *)

Lemma rows_loop_reader (all_lines : bool) (rl : list Z) (rows : list row) :
  forall idx rownr w w',
    rows_loop all_lines rl rows idx rownr w = (Ok tt, w') ->
    reader (fst w') = match rows with [] => reader (fst w) | _ :: _ => [] end.
Proof.
  induction rows as [|r rest IH]; intros idx rownr [o f] w' H.
  - injection H as <-. reflexivity.
  - cbn [rows_loop] in H. unfold bind at 1 in H. cbn [assign on_fst modify fst snd] in H.
    unfold bind at 1 in H. cbn [this fst snd] in H. unfold bind at 1, lift in H.
    destruct (format_row (with_reader rest o) r) as [line|e]; [|discriminate].
    unfold bind at 1 in H. cbn [write modify fst snd] in H.
    destruct (separator_after all_lines rl idx rownr) as [sep idx'].
    unfold bind at 1 in H.
    destruct sep; cbn [write modify ret fst snd] in H;
      rewrite (IH _ _ _ _ H); destruct rest; reflexivity.
Qed.

Lemma tolatex_body_reader (w w' : world) :
  tolatex_body w = (Ok tt, w') -> reader (fst w') = [].
Proof.
  intros H. unfold tolatex_body in H. unfold bind at 1 in H. cbn [this fst snd] in H.
  destruct (row_policy (keys (fst w))) as [all_lines rl].
  unfold bind at 1 in H.
  destruct (write_headers w) as [[[]|e] w1] eqn:E1; [|discriminate].
  unfold bind at 1 in H. cbn [this fst snd] in H. unfold bind at 1 in H.
  destruct (rows_loop all_lines rl (reader (fst w1)) 0 0 w1) as [[[]|e] w2] eqn:E2;
    [|discriminate].
  pose proof (rows_loop_reader _ _ _ _ _ _ _ E2) as Hl.
  assert (Hr : reader (fst w2) = []).
  { rewrite Hl. destruct (reader (fst w1)); reflexivity. }
  unfold bind, lift in H. destruct (getitem rl (-1)) as [last|e]; [|discriminate].
  destruct (last =? -1); injection H as <-; exact Hr.
Qed.

(** X16: when [tolatex] returns, the row source has been read to its end:
    a second [tolatex] on the same object finds no row. *)
Theorem tolatex_consumes_source (o : CSVToLaTeX) (f : string) :
  outcome (tolatex (o, f)) = Ok tt -> reader (after (tolatex (o, f))) = [].
Proof.
  unfold outcome, after. rewrite tolatex_steps.
  destruct (resolve_colstr (o, "")) as [[colstr|e] w1]; [|discriminate].
  pose proof (tolatex_body_reader (fill_columns o, table_open colstr)) as Hb.
  destruct (tolatex_body (fill_columns o, table_open colstr)) as [[[]|e] w2];
    [|discriminate].
  intros _. apply (Hb w2). reflexivity.
Qed.

Lemma tolatex_consumes_source_witness :
  reader (after (tolatex (plain 2 [["1"; "2"]; ["3"; "4"]], ""))) = [].
Proof.
  apply (tolatex_consumes_source (plain 2 [["1"; "2"]; ["3"; "4"]]) ""). reflexivity.
Defined.

Lemma write_headers_headers (o : CSVToLaTeX) (f : string) :
  headers (fst (snd (write_headers (o, f)))) = headers (restyle o).
Proof.
  unfold write_headers, restyle, restyles.
  unfold bind, this, write, assign, on_fst, modify, raise, ret. simpl.
  destruct (truthy (getattr_include_headers o)); [|reflexivity].
  destruct (bold (keys o)) as [[|]|]; simpl;
    destruct (headers o) as [hs|] eqn:Eh; simpl; rewrite ?Eh; reflexivity.
Qed.

Lemma tolatex_body_headers (w : world) :
  headers (fst (snd (tolatex_body w))) = headers (restyle (fst w)).
Proof.
  destruct w as [o f]. unfold tolatex_body. unfold bind at 1. cbn [this fst snd].
  destruct (row_policy (keys o)) as [all_lines rl].
  unfold bind at 1. pose proof (write_headers_headers o f) as Hh.
  destruct (write_headers (o, f)) as [[[]|e] w1]; cbn [fst snd] in *; [|exact Hh].
  rewrite <- Hh.
  apply (untouched_bind headers); [apply untouched_quiet; reflexivity | intros self].
  apply untouched_bind; [apply untouched_rows_loop; reflexivity | intros _].
  apply untouched_bind; [apply untouched_quiet; reflexivity | intros last].
  destruct (last =? -1); apply untouched_quiet; reflexivity.
Qed.

(** X17: each run of [tolatex] that gets as far as the header lines, with
    headers rendered bold, leaves the headers of the model wrapped in one
    more bold directive than it found them. *)
Theorem tolatex_wraps_headers (o : CSVToLaTeX) (f colstr : string) (hs : list string) :
  fst (resolve_colstr (o, "")) = Ok colstr ->
  restyles o = true -> headers o = Some hs ->
  headers (after (tolatex (o, f))) = Some (textbf <$> hs).
Proof.
  intros Hc Hr Hh. unfold after. rewrite tolatex_steps.
  destruct (resolve_colstr (o, "")) as [[c|e] w1]; simpl in Hc; [|discriminate].
  pose proof (tolatex_body_headers (fill_columns o, table_open c)) as Hb.
  assert (E : headers (restyle (fill_columns o)) = Some (textbf <$> hs)).
  { unfold fill_columns. destruct (columns o); unfold restyle;
      [|change (restyles (with_columns (Some (ColList (list_mul "c" (ncols o)))) o))
          with (restyles o)];
      rewrite Hr; simpl; rewrite Hh; reflexivity. }
  cbn [fst snd] in Hb. rewrite E in Hb.
  destruct (tolatex_body (fill_columns o, table_open c)) as [[[]|e] w2]; exact Hb.
Qed.

Lemma tolatex_wraps_headers_witness :
  let o := with_bold true (with_include_headers (Some true)
             (with_headers (Some ["\textbf{A}"]) (plain 1 []))) in
  headers (after (tolatex (o, ""))) = Some ["\textbf{\textbf{A}}"].
Proof.
  apply (tolatex_wraps_headers
           (with_bold true (with_include_headers (Some true)
              (with_headers (Some ["\textbf{A}"]) (plain 1 []))))
           "" "c" ["\textbf{A}"]); reflexivity.
Defined.

(** ** Subscripts in the setters *)

Lemma position_in_range (n : nat) (i : Z) :
  - Z.of_nat n <= i < Z.of_nat n ->
  position n i = Some (Z.to_nat (resolved (Z.of_nat n) i)).
Proof.
  intros H. unfold position, resolved.
  destruct (Z.leb_spec 0 i); simpl.
  - destruct (Z.ltb_spec i (Z.of_nat n)); [reflexivity | lia].
  - destruct (Z.leb_spec (- Z.of_nat n) i); [|lia].
    destruct (Z.ltb_spec i 0); [reflexivity | lia].
Qed.

Lemma position_out_of_range (n : nat) (i : Z) :
  ~ (- Z.of_nat n <= i < Z.of_nat n) -> position n i = None.
Proof.
  intros H. unfold position.
  destruct (Z.leb_spec 0 i); simpl.
  - destruct (Z.ltb_spec i (Z.of_nat n)); [lia|].
    destruct (Z.ltb_spec i 0); [lia|]. rewrite andb_false_r. reflexivity.
  - destruct (Z.leb_spec (- Z.of_nat n) i); [lia | reflexivity].
Qed.

Lemma resolved_hits (n : nat) (k : nat) (i : Z) :
  - Z.of_nat n <= i < Z.of_nat n -> (k < n)%nat ->
  hits (Z.of_nat n) k i = true <-> Z.to_nat (resolved (Z.of_nat n) i) = k.
Proof.
  intros Hi Hk. unfold hits, resolved. rewrite orb_true_iff, !Z.eqb_eq.
  destruct (Z.leb_spec 0 i); lia.
Qed.

(** The loop of [set_column_lines] over positions that are all in range. *)
Lemma mark_positions (n : nat) (idxs : list Z) :
  forall l : list string,
    length l = n ->
    Forall (fun i => - Z.of_nat n <= i < Z.of_nat n) idxs ->
    exists l',
      fold_res (fun l i => setitem l i "|") idxs l = Ok l' /\
      length l' = n /\
      forall k, (k < n)%nat ->
        l' !! k = if existsb (hits (Z.of_nat n) k) idxs then Some "|" else l !! k.
Proof.
  induction idxs as [|i idxs IH]; intros l Hl Hin.
  - exists l. split; [reflexivity | split; [exact Hl | reflexivity]].
  - apply Forall_cons in Hin as [Hi Hin]. cbn [fold_res]. unfold setitem at 1.
    rewrite Hl, (position_in_range n i Hi). cbn [rbind].
    destruct (IH (<[Z.to_nat (resolved (Z.of_nat n) i) := "|"]> l)
                ltac:(rewrite length_insert; exact Hl) Hin) as (l' & Hrun & Hlen & Hlook).
    exists l'. split; [exact Hrun | split; [exact Hlen|]].
    intros k Hk. rewrite (Hlook k Hk). cbn [existsb].
    destruct (existsb (hits (Z.of_nat n) k) idxs); [rewrite orb_true_r; reflexivity|].
    rewrite orb_false_r.
    destruct (hits (Z.of_nat n) k i) eqn:Eh.
    + apply (resolved_hits n k i Hi Hk) in Eh. rewrite Eh.
      apply list_lookup_insert_eq. lia.
    + apply list_lookup_insert_ne. intros E.
      apply (resolved_hits n k i Hi Hk) in E. congruence.
Qed.

(** The same loop when some position is out of range. *)
Lemma mark_positions_fails (n : nat) (idxs : list Z) :
  forall l : list string,
    length l = n ->
    Exists (fun i => ~ (- Z.of_nat n <= i < Z.of_nat n)) idxs ->
    fold_res (fun l i => setitem l i "|") idxs l = Raise IndexError.
Proof.
  induction idxs as [|i idxs IH]; intros l Hl Hex; [inversion Hex|].
  cbn [fold_res]. unfold setitem at 1. rewrite Hl.
  destruct (Z_le_dec (- Z.of_nat n) i) as [H1|H1];
    [destruct (Z_lt_dec i (Z.of_nat n)) as [H2|H2]|].
  - rewrite (position_in_range n i (conj H1 H2)). cbn [rbind].
    apply IH; [rewrite length_insert; exact Hl|].
    apply Exists_cons in Hex as [Hex|Hex]; [exfalso; apply Hex; lia | exact Hex].
  - rewrite position_out_of_range by lia. reflexivity.
  - rewrite position_out_of_range by lia. reflexivity.
Qed.

(** X18: given a list of integer positions, [set_column_lines] stores one
    separator per position [0 .. ncols]: a bar at each position that one of
    the integers stands for (a negative integer counting from the right
    edge, [-1] being position [ncols]) and the empty token elsewhere; when
    one of the integers is below [-(ncols + 1)] or above [ncols], it raises
    [IndexError] and leaves the model as it was. *)
Theorem set_column_lines_positions (self : CSVToLaTeX) (i : Z) (idxs : list Z) :
  0 <= ncols self ->
  (Forall (fun j => - (ncols self + 1) <= j < ncols self + 1) (i :: idxs) ->
     exists l,
       set_column_lines (LinesInts (i :: idxs)) self = (Ok tt, with_clines l self) /\
       len l = ncols self + 1 /\
       forall k, Z.of_nat k < ncols self + 1 ->
         l !! k = Some (if existsb (hits (ncols self + 1) k) (i :: idxs) then "|" else "")) /\
  (Exists (fun j => ~ (- (ncols self + 1) <= j < ncols self + 1)) (i :: idxs) ->
     set_column_lines (LinesInts (i :: idxs)) self = (Raise IndexError, self)).
Proof.
  intros Hn.
  assert (En : Z.of_nat (Z.to_nat (ncols self + 1)) = ncols self + 1) by lia.
  assert (Hl : length (list_mul "" (ncols self + 1)) = Z.to_nat (ncols self + 1))
    by apply length_replicate.
  split; intros H; unfold set_column_lines, bind, get, lift, modify.
  - destruct (mark_positions (Z.to_nat (ncols self + 1)) (i :: idxs)
                (list_mul "" (ncols self + 1)) Hl) as (l & Hrun & Hlen & Hlook).
    { rewrite En. exact H. }
    rewrite Hrun. exists l. split; [reflexivity|]. split; [unfold len; lia|].
    intros k Hk. rewrite (Hlook k ltac:(lia)), En.
    destruct (existsb _ _); [reflexivity|].
    unfold list_mul. apply lookup_replicate_2. lia.
  - rewrite (mark_positions_fails (Z.to_nat (ncols self + 1)) (i :: idxs)
               (list_mul "" (ncols self + 1)) Hl); [reflexivity|].
    rewrite En. exact H.
Qed.

Lemma set_column_lines_positions_witness :
  (exists l,
     set_column_lines (LinesInts [0; -1]) (plain 2 [])
       = (Ok tt, with_clines l (plain 2 [])) /\
     len l = 2 + 1 /\
     forall k, Z.of_nat k < 2 + 1 ->
       l !! k = Some (if existsb (hits (2 + 1) k) [0; -1] then "|" else "")) /\
  set_column_lines (LinesInts [0; 3]) (plain 2 []) = (Raise IndexError, plain 2 []).
Proof.
  split.
  - apply (proj1 (set_column_lines_positions (plain 2 []) 0 [-1] ltac:(simpl; lia))).
    repeat constructor; simpl; lia.
  - apply (proj2 (set_column_lines_positions (plain 2 []) 0 [3] ltac:(simpl; lia))).
    right. left. simpl. lia.
Defined.

Lemma set_column_line_run (self : CSVToLaTeX) (idx : Z) (line : string) :
  set_column_line idx line self =
    match setitem (separators self) idx line with
    | Ok l => (Ok tt, with_clines l self)
    | Raise e =>
        (Raise e,
         match clines (keys self) with
         | Some _ => self
         | None => with_clines (list_mul "" (ncols self + 1)) self
         end)
    end.
Proof.
  unfold separators, set_column_line. unfold bind at 1, get.
  destruct (clines (keys self)) as [l0|] eqn:E.
  - unfold bind, ret, get, lift, modify. rewrite E.
    destruct (setitem l0 idx line); reflexivity.
  - unfold bind at 1.
    change (set_column_lines (LinesStr "none") self)
      with (Ok tt, with_clines (list_mul "" (ncols self + 1)) self).
    unfold bind, get, lift, modify. cbn [clines keys with_clines with_keys].
    destruct (setitem (list_mul "" (ncols self + 1)) idx line); reflexivity.
Qed.

(** X19: [set_column_line(idx, line)] works on the configured separators,
    or on one empty token per position when none are configured, puts
    [line] at the position that [idx] stands for (a negative [idx] counting
    from the end) and keeps the others; an [idx] outside the list raises
    [IndexError], after which the separators are still configured: the
    empty ones have been stored by the failed call. *)
Theorem set_column_line_position (self : CSVToLaTeX) (idx : Z) (line : string) :
  (- len (separators self) <= idx < len (separators self) ->
     set_column_line idx line self =
       (Ok tt,
        with_clines
          (<[Z.to_nat (resolved (len (separators self)) idx) := line]> (separators self))
          self)) /\
  (~ (- len (separators self) <= idx < len (separators self)) ->
     fst (set_column_line idx line self) = Raise IndexError /\
     clines (keys (snd (set_column_line idx line self))) = Some (separators self)).
Proof.
  rewrite set_column_line_run. unfold len, setitem. split; intros H.
  - rewrite (position_in_range _ _ H). reflexivity.
  - rewrite (position_out_of_range _ _ H). split; [reflexivity|].
    unfold separators. cbn [snd]. destruct (clines (keys self)) eqn:E; [exact E | reflexivity].
Qed.

Lemma set_column_line_position_witness :
  set_column_line (-2) "||" (plain 2 [])
    = (Ok tt, with_clines [""; "||"; ""] (plain 2 [])) /\
  fst (set_column_line 3 "|" (plain 2 [])) = Raise IndexError /\
  clines (keys (snd (set_column_line 3 "|" (plain 2 [])))) = Some [""; ""; ""].
Proof.
  split.
  - apply (proj1 (set_column_line_position (plain 2 []) (-2) "||")).
    change (- 3 <= -2 < 3). lia.
  - apply (proj2 (set_column_line_position (plain 2 []) 3 "|")).
    change (~ (- 3 <= 3 < 3)). lia.
Defined.



Lemma zip_replicate (f : formatter) (r : row) :
  forall n,
    map_res (fun p : formatter * string => fst p (snd p)) (zip (replicate n f) r)
    = map_res f (take n r).
Proof.
  induction r as [|c r IH]; intros n.
  - destruct n; reflexivity.
  - destruct n as [|n]; [reflexivity|]. simpl. rewrite IH. reflexivity.
Qed.

(** X21: [set_formatters] given a single formatter makes every column use
    it: a row that has a cell for each column is then formatted by applying
    that formatter to its first [ncols] cells in turn; given a list whose
    length is not the column count it raises [ValueError] and leaves the
    model as it was. *)
Theorem set_formatters_broadcast (self : CSVToLaTeX) (f : formatter)
    (fs : list formatter) (r : row) :
  0 <= ncols self ->
  (ncols self <= len r ->
     fst (set_formatters (FmtOne f) self) = Ok tt /\
     format_row (snd (set_formatters (FmtOne f) self)) r =
       rbind (map_res f (take (Z.to_nat (ncols self)) r))
         (fun cells => Ok (join " & " cells))) /\
  (len fs <> ncols self ->
     set_formatters (FmtList fs) self = (Raise ValueError, self)).
Proof.
  intros Hn. split.
  - unfold len. intros Hr. split; [reflexivity|].
    unfold set_formatters, bind, get, modify. cbn [fst snd].
    unfold format_row, range. cbn [formatters ncols with_formatters].
    rewrite (format_cells (list_mul f (ncols self)) r (Z.to_nat (ncols self)) 0).
    + rewrite !drop_0. unfold list_mul. rewrite zip_replicate. reflexivity.
    + unfold list_mul. rewrite length_replicate. reflexivity.
    + lia.
  - intros H. unfold set_formatters, bind, get.
    destruct (Z.eqb_spec (len fs) (ncols self)); [contradiction | reflexivity].
Qed.

Lemma set_formatters_broadcast_witness :
  let up : formatter := fun s => Ok (s +:+ "!") in
  (fst (set_formatters (FmtOne up) (plain 2 [])) = Ok tt /\
   format_row (snd (set_formatters (FmtOne up) (plain 2 []))) ["a"; "b"; "c"]
     = Ok "a! & b!") /\
  set_formatters (FmtList [up]) (plain 2 []) = (Raise ValueError, plain 2 []).
Proof.
  split.
  - apply (proj1 (set_formatters_broadcast (plain 2 []) (fun s => Ok (s +:+ "!"))
                    [] ["a"; "b"; "c"] ltac:(simpl; lia))).
    vm_compute. discriminate.
  - apply (proj2 (set_formatters_broadcast (plain 2 []) (fun s => Ok (s +:+ "!"))
                    [fun s => Ok (s +:+ "!")] [] ltac:(simpl; lia))).
    vm_compute. discriminate.
Defined.

(** ** Row indices out of order *)

(** Once the index under the cursor is below the number of the current
    row, the cursor stays there and no rule is written any more. *)
Lemma rows_loop_stuck (rl : list Z) (idx : nat) (k : Z) (rows : list row) :
  rl !! idx = Some k ->
  forall lines rownr o f,
    k < rownr ->
    map_res (format_row o) rows = Ok lines ->
    exists o',
      rows_loop false rl rows idx rownr (o, f) =
        (Ok tt, (o', f +:+ flat ((fun l => l +:+ endline) <$> lines))).
Proof.
  intros Hk. induction rows as [|r rows IH]; intros lines rownr o f Hlt Hfmt.
  - injection Hfmt as <-. exists o. cbn. rewrite str_app_nil_r. reflexivity.
  - simpl in Hfmt.
    destruct (format_row o r) as [l|e] eqn:El; [|discriminate]. simpl in Hfmt.
    destruct (map_res (format_row o) rows) as [ls|e] eqn:Els; [|discriminate].
    injection Hfmt as <-.
    destruct (IH ls (rownr + 1) (with_reader rows o) (f +:+ (l +:+ endline))
                ltac:(lia) Els) as (o' & Hrun).
    exists o'. cbn [rows_loop]. unfold bind at 1. cbn [assign on_fst modify fst snd].
    unfold bind at 1. cbn [this fst snd]. unfold bind at 1, lift.
    change (format_row (with_reader rows o) r) with (format_row o r).
    rewrite El. unfold bind at 1. cbn [write modify fst snd].
    unfold separator_after. rewrite Hk.
    destruct (Z.eqb_spec rownr k); [lia|].
    unfold bind at 1. cbn [ret]. rewrite Hrun.
    change (flat ((fun l => l +:+ endline) <$> l :: ls))
      with ((l +:+ endline) +:+ flat ((fun l => l +:+ endline) <$> ls)).
    rewrite !str_app_assoc. reflexivity.
Qed.

(** X22: when the list of row indices starts with a negative index, the
    cursor never moves past it: no rule is written among the rows, whatever
    indices follow it in the list; only the last index of the list still
    decides, when it is [-1], whether a rule closes the rows. *)
Theorem tolatex_negative_index_first (o : CSVToLaTeX) (f colstr : string)
    (k : Z) (rl : list Z) (lines : list string) :
  row_policy (keys o) = (false, k :: rl) -> k < 0 ->
  fst (resolve_colstr (o, "")) = Ok colstr ->
  (truthy (getattr_include_headers o) = true -> headers o <> None) ->
  map_res (format_row o) (reader o) = Ok lines ->
  outcome (tolatex (o, f)) = Ok tt /\
  output (tolatex (o, f)) =
    table_open colstr +:+ header_text o
    +:+ flat ((fun l => l +:+ endline) <$> lines)
    +:+ closing_rule (k :: rl) +:+ table_close.
Proof.
  intros Hp Hk Hc Hh Hfmt.
  destruct (filled_fields o) as (Er & En & Ef & Eh & Ei).
  destruct (restyle_fields (fill_columns o)) as (Er' & En' & Ef' & _).
  assert (E : exists o',
            tolatex_body (fill_columns o, table_open colstr) =
              (Ok tt, (o', ((table_open colstr +:+ header_text o)
                            +:+ flat ((fun l => l +:+ endline) <$> lines))
                           +:+ closing_rule (k :: rl)))).
  { destruct (rows_loop_stuck (k :: rl) 0 k (reader o) eq_refl lines 0
                (restyle (fill_columns o))
                (table_open colstr +:+ header_text o) ltac:(lia)) as (o' & Hrun).
    { rewrite <- Hfmt. apply map_res_ext. intros r. apply format_row_ext; congruence. }
    exists o'.
    unfold tolatex_body. unfold bind at 1. cbn [this fst snd]. rewrite keys_filled, Hp.
    unfold bind at 1. rewrite write_headers_run
      by (unfold getattr_include_headers; rewrite Ei, Eh; exact Hh).
    unfold bind at 1. cbn [this fst snd]. rewrite Er', Er, header_text_filled.
    unfold bind at 1. rewrite Hrun. unfold bind, lift.
    rewrite getitem_minus_1. unfold closing_rule.
    destruct (last (k :: rl)) as [j|] eqn:El; [|apply last_None in El; discriminate].
    destruct (j =? -1); cbn [write modify ret fst snd];
      rewrite ?str_app_nil_r; reflexivity. }
  destruct E as (o' & E).
  unfold outcome, output. rewrite tolatex_steps.
  destruct (resolve_colstr (o, "")) as [[c|e] w1]; simpl in Hc; [|discriminate].
  injection Hc as ->. rewrite E. cbn [fst snd].
  split; [reflexivity|]. rewrite !str_app_assoc. reflexivity.
Qed.

Lemma tolatex_negative_index_first_witness :
  let o := with_rlines (RowList [-1; 0]) (plain 2 [["1"; "2"]; ["3"; "4"]]) in
  outcome (tolatex (o, "")) = Ok tt /\
  output (tolatex (o, "")) =
    text ["\begin{tabular}{cc}"; "1 & 2\\"; "3 & 4\\"] +:+ "\end{tabular}".
Proof.
  apply (tolatex_negative_index_first
           (with_rlines (RowList [-1; 0]) (plain 2 [["1"; "2"]; ["3"; "4"]]))
           "" "cc" (-1) [0] ["1 & 2"; "3 & 4"]); try reflexivity.
  discriminate.
Defined.

(** ** Further properties of [tolatex] and [set_columns] *)

(** X23: as long as the headers are not rendered bold, rendering a model a
    second time against the same rows gives the same outcome, the same text
    and leaves the same model as the first time. *)
Theorem render_twice_without_bold (self : CSVToLaTeX) (rows : list row) :
  restyles self = false ->
  render (after (render self rows)) rows = render self rows.
Proof. apply render_twice_same. Qed.

Lemma render_twice_without_bold_witness :
  let self := with_include_headers (Some true)
                (with_headers (Some ["A"; "B"]) (plain 2 [])) in
  render (after (render self [["1"; "2"]])) [["1"; "2"]] = render self [["1"; "2"]].
Proof.
  apply (render_twice_without_bold
           (with_include_headers (Some true) (with_headers (Some ["A"; "B"]) (plain 2 [])))
           [["1"; "2"]]).
  reflexivity.
Defined.

(** X24: on a model with an alignment that is a literal string or one token
    per column with enough separators, with headers when they are to be
    rendered and with at least one row index, in any order, [tolatex]
    returns whenever every row can be formatted, and the text then begins
    with the opening directive and ends with the closing directive. *)
Theorem tolatex_returns_and_closes (o : CSVToLaTeX) (f : string) :
  well_configured o -> formats o (reader o) ->
  outcome (tolatex (o, f)) = Ok tt /\
  exists colstr body,
    fst (resolve_colstr (o, "")) = Ok colstr /\
    output (tolatex (o, f)) = table_open colstr +:+ body +:+ table_close.
Proof. apply tolatex_well_configured. Qed.

Lemma tolatex_returns_and_closes_witness :
  let o := with_rlines (RowList [1; 0]) (plain 2 [["1"; "2"]; ["3"; "4"]]) in
  outcome (tolatex (o, "")) = Ok tt /\
  exists colstr body,
    fst (resolve_colstr (o, "")) = Ok colstr /\
    output (tolatex (o, "")) = table_open colstr +:+ body +:+ table_close.
Proof.
  apply (tolatex_returns_and_closes
           (with_rlines (RowList [1; 0]) (plain 2 [["1"; "2"]; ["3"; "4"]])) "").
  - repeat split; simpl; try lia; discriminate.
  - repeat constructor.
Defined.

(** X25: [tolatex] never returns when the row separators are an empty
    list of indices or a string other than ["none"] (["all"] included): the
    test of line 281 finds no last index and raises. *)
Theorem tolatex_without_row_indices (o : CSVToLaTeX) (f : string) :
  rlines (keys o) = Some (RowList []) \/
  (exists s, rlines (keys o) = Some (RowStr s) /\ s <> "none") ->
  is_ok (outcome (tolatex (o, f))) = false.
Proof.
  intros H. apply tolatex_no_sentinel. unfold row_policy.
  destruct H as [-> | (s & -> & Hs)]; [reflexivity|].
  destruct (str_eq s "all"); [reflexivity|].
  unfold str_eq. destruct (String.eqb_spec s "none"); [contradiction | reflexivity].
Qed.

Lemma tolatex_without_row_indices_witness :
  is_ok (outcome (tolatex (with_rlines (RowStr "some") (plain 1 []), ""))) = false.
Proof.
  apply (tolatex_without_row_indices (with_rlines (RowStr "some") (plain 1 [])) "").
  right. exists "some". split; [reflexivity | discriminate].
Defined.

(** X26: given a sequence, [set_columns] raises [ValueError] and leaves the
    model as it was when the length of the sequence is not the column
    count; otherwise it stores the sequence with [center], [left] and
    [right] replaced by [c], [l] and [r], every other token being kept as it
    is. *)
Theorem set_columns_sequence (self : CSVToLaTeX) (l : list string) :
  (len l <> ncols self -> set_columns (ColList l) self = (Raise ValueError, self)) /\
  (len l = ncols self ->
     set_columns (ColList l) self
       = (Ok tt, with_columns (Some (ColList (normalize <$> l))) self)) /\
  normalize "center" = "c" /\ normalize "left" = "l" /\ normalize "right" = "r" /\
  (forall tok, tok <> "center" -> tok <> "left" -> tok <> "right" -> normalize tok = tok).
Proof.
  rewrite set_columns_list.
  split; [|split; [|split; [|split; [|split]]]]; try reflexivity.
  - intros H. destruct (Z.eqb_spec (len l) (ncols self)); [contradiction | reflexivity].
  - intros H. rewrite H, Z.eqb_refl. reflexivity.
  - apply normalize_other.
Qed.

Lemma set_columns_sequence_witness :
  set_columns (ColList ["left"]) (plain 2 []) = (Raise ValueError, plain 2 []) /\
  set_columns (ColList ["left"; "p{2cm}"]) (plain 2 [])
    = (Ok tt, with_columns (Some (ColList ["l"; "p{2cm}"])) (plain 2 [])) /\
  normalize "p{2cm}" = "p{2cm}".
Proof.
  split; [|split].
  - apply (proj1 (set_columns_sequence (plain 2 []) ["left"])). vm_compute. discriminate.
  - apply (proj1 (proj2 (set_columns_sequence (plain 2 []) ["left"; "p{2cm}"]))).
    reflexivity.
  - apply (proj2 (proj2 (proj2 (proj2 (proj2
             (set_columns_sequence (plain 2 []) [])))))); discriminate.
Defined.
